(** * Stock MCP server: request handling and text formatting

    A shallow embedding of [stock_mcp/stock_formatter.py] ([format_data]) and
    of the two request handlers of [stock_mcp/server.py]
    ([_fetch_current_stock_price], [_fetch_historical_stock_price]), with the
    Python builtins they rely on: [float()], [str()], the [.2f] format,
    [datetime.strptime] with ['%Y-%m-%d'] and [date.weekday()].  The
    resources and tools that wrap the handlers and the two prompts that take
    a symbol are embedded too; the start-up of the process ([main], the
    reading of the API key) and the constant usage guide are not.

    Conventions of the model.
    - A Python [str] is a Rocq [string] read as ASCII text: the digit and
      white-space classes of [float()] and [strptime] are the ASCII ones, and
      the two direction glyphs are carried as their UTF-8 bytes.  On text
      with other characters Python also reads the decimal digits and the
      white space of other scripts; a statement that depends on a text being
      refused by [strptime] or by [float()] therefore assumes the text ASCII
      ([ascii_text]).
    - A Python [float] is a binary64 value of the Standard Library's
      [spec_float]; conversions round to nearest, ties to even.
    - A payload is a dictionary with string keys, a [gmap string PyVal].
    - [str()] of an [int] is its decimal text.  CPython 3.11 refuses the
      conversion beyond 4300 digits; a statement that no exception is raised
      therefore assumes the integers of the payload shorter
      ([short_ints]).
    - The upstream client, the clock and the stderr log are the only effects;
      a handler is a function of the [World] that returns the events it
      produced together with its result.  What the client raises is an
      instance of [Exception], and writing a log line succeeds. *)

From Stdlib Require Import ZArith Bool List Ascii String Lia.
From Stdlib Require Import Floats.SpecFloat.
From stdpp Require Import base option list gmap strings pretty.

(** ** Binary64 numbers *)

Module Float.

Definition prec : Z := 53.
Definition emax : Z := 1024.

(** [n / d] (with [0 <= n], [0 < d]) rounded to the nearest binary64: the
    quotient is taken with at least 56 significant bits, the remainder
    gives the position of the exact value between two integers, and
    [binary_round_aux] rounds and detects overflow. *)
Definition of_ratio (neg : bool) (n d : Z) : spec_float :=
  if (n =? 0)%Z then S754_zero neg
  else
    let k := Z.max 0 (Z.log2 d - Z.log2 n + 56) in
    let num := (n * 2 ^ k)%Z in
    let q := (num / d)%Z in
    let r := (num mod d)%Z in
    let loc := if (r =? 0)%Z then loc_Exact else loc_Inexact (2 * r ?= d)%Z in
    binary_round_aux prec emax neg q (- k) loc.

(** The decimal [m * 10 ^ x], [0 <= m]. *)
Definition of_decimal (neg : bool) (m x : Z) : spec_float :=
  if (0 <=? x)%Z then of_ratio neg (m * 10 ^ x) 1
  else of_ratio neg m (10 ^ (- x)).

Definition of_Z (n : Z) : spec_float :=
  of_ratio (n <? 0)%Z (Z.abs n) 1.

(** [f >= 0]; false for a NaN, true for both zeros. *)
Definition ge0 (f : spec_float) : bool := SFleb (S754_zero false) f.

(** [f == n] for a Python int [n]: the comparison is exact. *)
Definition eq_Z (f : spec_float) (n : Z) : bool :=
  match f with
  | S754_zero _ => (n =? 0)%Z
  | S754_finite s m e =>
      if (0 <=? e)%Z then (cond_Zopp s (Z.pos m) * 2 ^ e =? n)%Z
      else (cond_Zopp s (Z.pos m) =? n * 2 ^ (- e))%Z
  | _ => false
  end.

Definition same_value (f g : spec_float) : bool :=
  match f, g with
  | S754_zero _, S754_zero _ => true
  | S754_infinity s, S754_infinity t => Bool.eqb s t
  | S754_finite s m e, S754_finite t n x =>
      let e0 := Z.min e x in
      Bool.eqb s t && (Z.pos m * 2 ^ (e - e0) =? Z.pos n * 2 ^ (x - e0))%Z
  | _, _ => false
  end.

Definition is_finite (f : spec_float) : bool :=
  match f with
  | S754_zero _ | S754_finite _ _ _ => true
  | _ => false
  end.

Definition round_half_even (n d : Z) : Z :=
  let q := (n / d)%Z in
  match (2 * (n mod d) ?= d)%Z with
  | Lt => q
  | Gt => (q + 1)%Z
  | Eq => if Z.even q then q else (q + 1)%Z
  end.

Definition pad2 (n : Z) : string :=
  if (n <? 10)%Z then "0" +:+ pretty n else pretty n.

(** Sign, integer part, point and exactly two decimals of [hundredths/100]. *)
Definition fixed2 (neg : bool) (hundredths : Z) : string :=
  (if neg then "-" else "") +:+ pretty (hundredths / 100)%Z +:+ "."
    +:+ pad2 (hundredths mod 100)%Z.

(** The number of hundredths nearest to the exact value of [m * 2 ^ e]. *)
Definition hundredths (m : positive) (e : Z) : Z :=
  if (0 <=? e)%Z then (Z.pos m * 2 ^ e * 100)%Z
  else round_half_even (Z.pos m * 100) (2 ^ (- e)).

(** [f"{x:.2f}"] *)
Definition format_2f (f : spec_float) : string :=
  match f with
  | S754_nan => "nan"
  | S754_infinity s => if s then "-inf" else "inf"
  | S754_zero s => fixed2 s 0
  | S754_finite s m e => fixed2 s (hundredths m e)
  end.

(** [a / b < 10 ^ p] *)
Definition lt_pow10 (a b p : Z) : bool :=
  if (0 <=? p)%Z then (a <? b * 10 ^ p)%Z else (a * 10 ^ (- p) <? b)%Z.

Fixpoint decpt_from (fuel : nat) (a b p : Z) : Z :=
  match fuel with
  | O => p
  | S fuel' => if lt_pow10 a b p then p else decpt_from fuel' a b (p + 1)
  end.

(** The least [p] with [a / b < 10 ^ p], searched from an under-estimate
    of the decimal logarithm. *)
Definition decpt (a b : Z) : Z :=
  decpt_from 6 a b (((Z.log2 a - Z.log2 b - 1) * 30103) / 100000 - 1).

Definition scaled (a b s : Z) : Z * Z :=
  if (0 <=? s)%Z then (a, b * 10 ^ s)%Z else (a * 10 ^ (- s), b)%Z.

Fixpoint strip_zeros_rev (l : list ascii) : list ascii :=
  match l with
  | "0"%char :: l' => strip_zeros_rev l'
  | _ => l
  end.

Definition strip_trailing_zeros (s : string) : string :=
  string_of_list_ascii (rev (strip_zeros_rev (rev (list_ascii_of_string s)))).

(** The shortest digit string that reads back as [f] (the value [a / b],
    with [10 ^ (p-1) <= a / b < 10 ^ p]): for [n = 1, 2, ...] digits the two
    [n]-digit decimals around the value are tried, the nearer one first,
    ties to the even one.  Returns the digits and the position of the
    decimal point. *)
Fixpoint shortest_from (fuel : nat) (f : spec_float) (a b p n : Z) : string * Z :=
  let s := (p - n)%Z in
  let '(num, den) := scaled a b s in
  let lo := (num / den)%Z in
  let hi := (lo + 1)%Z in
  let ok_lo := same_value (of_decimal false lo s) f in
  let ok_hi := same_value (of_decimal false hi s) f in
  let pick (d : Z) :=
    (strip_trailing_zeros (pretty d), (Z.of_nat (String.length (pretty d)) + s)%Z) in
  match fuel with
  | O => pick (round_half_even num den)
  | S fuel' =>
      if ok_lo && ok_hi then pick (round_half_even num den)
      else if ok_lo then pick lo
      else if ok_hi then pick hi
      else shortest_from fuel' f a b p (n + 1)
  end.

Definition shortest_digits (m : positive) (e : Z) : string * Z :=
  let '(a, b) :=
    if (0 <=? e)%Z then (Z.pos m * 2 ^ e, 1)%Z else (Z.pos m, 2 ^ (- e))%Z in
  shortest_from 16 (S754_finite false m e) a b (decpt a b) 1.

Fixpoint zeros (n : nat) : string :=
  match n with O => "" | S n' => String "0" (zeros n') end.

Definition exp_text (x : Z) : string :=
  (if (x <? 0)%Z then "-" else "+") +:+ pad2 (Z.abs x).

(** Fixed notation when the decimal point falls in [-4 < dp <= 16],
    exponent notation otherwise. *)
Definition layout (ds : string) (dp : Z) : string :=
  let len := Z.of_nat (String.length ds) in
  if ((dp <=? -4) || (16 <? dp))%Z then
    substring 0 1 ds
      +:+ (if (1 <? len)%Z then "." +:+ substring 1 (String.length ds - 1) ds else "")
      +:+ "e" +:+ exp_text (dp - 1)
  else if (dp <=? 0)%Z then "0." +:+ zeros (Z.to_nat (- dp)) +:+ ds
  else if (dp <? len)%Z then
    substring 0 (Z.to_nat dp) ds +:+ "."
      +:+ substring (Z.to_nat dp) (String.length ds - Z.to_nat dp) ds
  else ds +:+ zeros (Z.to_nat (dp - len)) +:+ ".0".

(** [repr(x)], which is also [str(x)] *)
Definition repr (f : spec_float) : string :=
  match f with
  | S754_nan => "nan"
  | S754_infinity s => if s then "-inf" else "inf"
  | S754_zero s => if s then "-0.0" else "0.0"
  | S754_finite s m e =>
      let '(ds, dp) := shortest_digits m e in
      (if s then "-" else "") +:+ layout ds dp
  end.

End Float.

(** ** Text *)

Module Text.

Definition code (c : ascii) : nat := nat_of_ascii c.

Definition in_range (lo hi : ascii) (c : ascii) : bool :=
  Nat.leb (code lo) (code c) && Nat.leb (code c) (code hi).

Definition is_char (a : ascii) (c : ascii) : bool := Ascii.eqb a c.

Definition is_digit : ascii → bool := in_range "0" "9".

Definition digit_value (c : ascii) : Z := Z.of_nat (code c) - 48.

(** C [isspace]: space, and tab, line feed, vertical tab, form feed,
    carriage return (codes 9 to 13). *)
Definition is_space (c : ascii) : bool :=
  Nat.eqb (code c) 32 || (Nat.leb 9 (code c) && Nat.leb (code c) 13).

Definition lower (c : ascii) : ascii :=
  if in_range "A" "Z" c then ascii_of_nat (code c + 32) else c.

Fixpoint lstrip (l : list ascii) : list ascii :=
  match l with
  | c :: l' => if is_space c then lstrip l' else l
  | [] => []
  end.

Definition strip (l : list ascii) : list ascii :=
  rev (lstrip (rev (lstrip l))).

Fixpoint digits_value (acc : Z) (l : list ascii) : Z :=
  match l with
  | c :: l' => digits_value (10 * acc + digit_value c) l'
  | [] => acc
  end.

(** The longest prefix of digits, and what follows it. *)
Fixpoint span_digits (l : list ascii) : list ascii * list ascii :=
  match l with
  | c :: l' =>
      if is_digit c then let '(ds, r) := span_digits l' in (c :: ds, r)
      else ([], l)
  | [] => ([], [])
  end.

Definition is_nil {A} (l : list A) : bool :=
  match l with [] => true | _ => false end.

Definition text_eqb (l : list ascii) (s : string) : bool :=
  String.eqb (string_of_list_ascii l) s.

Definition hex_digit (n : nat) : ascii :=
  if Nat.ltb n 10 then ascii_of_nat (48 + n) else ascii_of_nat (87 + n).

(** [s] occurs in [t]. *)
Definition contains (t s : string) : Prop :=
  ∃ before after, t = before +:+ s +:+ after.

(** [t] starts with [s]. *)
Definition starts_with (t s : string) : Prop :=
  ∃ after, t = s +:+ after.

End Text.

(** ** Exceptions and results *)

Inductive ExnClass :=
| ValueError
| TypeError
| OverflowError
| AttributeError
| OtherException.

(** An instance of a subclass of [Exception]; [exn_text] is [str(e)]. *)
Record Exn := MkExn { exn_class : ExnClass; exn_text : string }.

Inductive result (A : Type) :=
| Ok (a : A)
| Raise (e : Exn).
Arguments Ok {A} a.
Arguments Raise {A} e.

Definition is_Ok {A} (r : result A) : bool :=
  match r with Ok _ => true | Raise _ => false end.

(** ** Values found in a payload *)

Inductive PyVal :=
| PyNone
| PyBool (b : bool)
| PyInt (n : Z)
| PyFloat (f : spec_float)
| PyStr (s : string)
(** Any other object, such as a nested JSON array or object.  The program
    never looks inside one: it is no [str], [int] or [float], it equals no
    string and no number, [float()] rejects it, and [str()] gives [text]. *)
| PyObj (type_name : string) (text : string).

(** [repr(s)] of a [str], as quoted in the message of [float()]. *)
Definition escape_char (quote : ascii) (c : ascii) : string :=
  let n := Text.code c in
  if Ascii.eqb c quote || Ascii.eqb c "\" then String "\" (String c "")
  else if Nat.eqb n 9 then "\t"
  else if Nat.eqb n 10 then "\n"
  else if Nat.eqb n 13 then "\r"
  else if Nat.ltb n 32 || Nat.eqb n 127 then
    String "\" (String "x" (String (Text.hex_digit (n / 16))
                              (String (Text.hex_digit (n mod 16)) "")))
  else String c "".

Definition str_repr (s : string) : string :=
  let l := list_ascii_of_string s in
  let quote : ascii :=
    if existsb (Ascii.eqb "'") l && negb (existsb (Ascii.eqb "034") l)
    then "034"%char else "'"%char in
  String quote (fold_right (λ c acc, escape_char quote c +:+ acc) (String quote "") l).

(** [str(v)], which is also what an f-string field [{v}] interpolates.
    For an integer this is the conversion within the interpreter's limit on
    its length (4300 digits by default in CPython 3.11), beyond which
    Python raises a [ValueError]. *)
Definition py_str (v : PyVal) : string :=
  match v with
  | PyNone => "None"
  | PyBool b => if b then "True" else "False"
  | PyInt n => pretty n
  | PyFloat f => Float.repr f
  | PyStr s => s
  | PyObj _ text => text
  end.

(** [v == s] for a string [s] *)
Definition py_eq_str (v : PyVal) (s : string) : bool :=
  match v with
  | PyStr t => String.eqb t s
  | _ => false
  end.

(** [v == n] for an int [n] *)
Definition py_eq_int (v : PyVal) (n : Z) : bool :=
  match v with
  | PyInt m => (m =? n)%Z
  | PyBool b => ((if b then 1 else 0) =? n)%Z
  | PyFloat f => Float.eq_Z f n
  | _ => false
  end.

(** [v is None] *)
Definition py_is_none (v : PyVal) : bool :=
  match v with PyNone => true | _ => false end.

(** [isinstance(v, (str, int, float))]; [bool] is a subclass of [int]. *)
Definition isinstance_str_int_float (v : PyVal) : bool :=
  match v with
  | PyStr _ | PyInt _ | PyBool _ | PyFloat _ => true
  | PyNone | PyObj _ _ => false
  end.

(** *** [float()] *)

(** Underscores of a numeric literal are dropped; each must stand between
    two digits. *)
Fixpoint drop_underscores (prev : ascii) (l : list ascii) : option (list ascii) :=
  match l with
  | [] => if Text.is_char "_" prev then None else Some []
  | c :: l' =>
      if Text.is_char "_" c then
        if Text.is_digit prev then drop_underscores c l' else None
      else if Text.is_char "_" prev && negb (Text.is_digit c) then None
      else cons c <$> drop_underscores c l'
  end.

Definition parse_sign (l : list ascii) : bool * list ascii :=
  match l with
  | "-"%char :: r => (true, r)
  | "+"%char :: r => (false, r)
  | _ => (false, l)
  end.

(** What follows the mantissa: nothing, or [e], an optional sign and at
    least one digit, up to the end of the text. *)
Definition parse_exponent (l : list ascii) : option Z :=
  match l with
  | [] => Some 0%Z
  | c :: r =>
      if Text.is_char "e" (Text.lower c) then
        let '(neg, r') := parse_sign r in
        let '(ds, rest) := Text.span_digits r' in
        if Text.is_nil ds || negb (Text.is_nil rest) then None
        else Some (cond_Zopp neg (Text.digits_value 0 ds))
      else None
  end.

Definition parse_float (l : list ascii) : option spec_float :=
  let '(neg, body) := parse_sign l in
  let low := map Text.lower body in
  if Text.text_eqb low "inf" || Text.text_eqb low "infinity" then Some (S754_infinity neg)
  else if Text.text_eqb low "nan" then Some S754_nan
  else
    let '(ip, r1) := Text.span_digits body in
    let '(fp, r2) :=
      match r1 with
      | "."%char :: r => Text.span_digits r
      | _ => ([], r1)
      end in
    if Text.is_nil ip && Text.is_nil fp then None
    else
      x ← parse_exponent r2;
      Some (Float.of_decimal neg (Text.digits_value 0 (ip ++ fp))
              (x - Z.of_nat (length fp))).

(** [float(s)] for an ASCII text [s]; [None] stands for the [ValueError].
    (In a text with other characters Python first replaces the decimal
    digits and the white space of other scripts by ASCII ones.) *)
Definition float_of_str (s : string) : option spec_float :=
  drop_underscores "000" (Text.strip (list_ascii_of_string s)) ≫= parse_float.

Definition py_float (v : PyVal) : result spec_float :=
  match v with
  | PyFloat f => Ok f
  | PyBool b => Ok (Float.of_Z (if b then 1 else 0))
  | PyInt n =>
      match Float.of_Z n with
      | S754_infinity _ =>
          Raise (MkExn OverflowError "int too large to convert to float")
      | f => Ok f
      end
  | PyStr s =>
      match float_of_str s with
      | Some f => Ok f
      | None =>
          Raise (MkExn ValueError ("could not convert string to float: " +:+ str_repr s))
      end
  | PyNone =>
      Raise (MkExn TypeError
               "float() argument must be a string or a real number, not 'NoneType'")
  | PyObj ty _ =>
      Raise (MkExn TypeError
               ("float() argument must be a string or a real number, not '" +:+ ty +:+ "'"))
  end.

(** ** Dates: [datetime.strptime(date, '%Y-%m-%d')] and [weekday()] *)

Module Datetime.

Record date := MkDate { year : Z; month : Z; day : Z }.

Definition _is_leap (y : Z) : bool :=
  ((y mod 4 =? 0) && (negb (y mod 100 =? 0) || (y mod 400 =? 0)))%Z.

Definition _DAYS_IN_MONTH : list Z :=
  [-1; 31; 28; 31; 30; 31; 30; 31; 31; 30; 31; 30; 31]%Z.

Definition _DAYS_BEFORE_MONTH : list Z :=
  [-1; 0; 31; 59; 90; 120; 151; 181; 212; 243; 273; 304; 334]%Z.

Definition _days_before_year (y : Z) : Z :=
  let y1 := (y - 1)%Z in
  (y1 * 365 + y1 / 4 - y1 / 100 + y1 / 400)%Z.

Definition _days_in_month (y m : Z) : Z :=
  if ((m =? 2) && _is_leap y)%Z then 29%Z
  else nth (Z.to_nat m) _DAYS_IN_MONTH 0%Z.

Definition _days_before_month (y m : Z) : Z :=
  (nth (Z.to_nat m) _DAYS_BEFORE_MONTH 0
   + (if (2 <? m) && _is_leap y then 1 else 0))%Z.

Definition _ymd2ord (y m d : Z) : Z :=
  (_days_before_year y + _days_before_month y m + d)%Z.

Definition toordinal (dt : date) : Z :=
  _ymd2ord (year dt) (month dt) (day dt).

(** Monday is 0, Sunday is 6. *)
Definition weekday (dt : date) : Z := ((toordinal dt + 6) mod 7)%Z.

(** The range checks of the [date] constructor (a [ValueError] outside). *)
Definition _check_date_fields (y m d : Z) : option date :=
  if ((1 <=? y) && (y <=? 9999) && (1 <=? m) && (m <=? 12)
      && (1 <=? d) && (d <=? _days_in_month y m))%Z
  then Some (MkDate y m d) else None.

(** A regular-expression group is a list of alternatives, tried in order,
    each a sequence of character classes. *)
Definition Class := ascii → bool.

Fixpoint match_seq (cs : list Class) (l : list ascii)
  : option (list ascii * list ascii) :=
  match cs, l with
  | [], _ => Some ([], l)
  | c :: cs', a :: l' =>
      if c a then
        '(m, r) ← match_seq cs' l'; Some (a :: m, r)
      else None
  | _ :: _, [] => None
  end.

Fixpoint match_group (alts : list (list Class)) (l : list ascii)
  : option (list ascii * list ascii) :=
  match alts with
  | [] => None
  | cs :: alts' =>
      match match_seq cs l with
      | Some r => Some r
      | None => match_group alts' l
      end
  end.

(** [%Y] is [\d\d\d\d] *)
Definition group_Y : list (list Class) :=
  [[Text.is_digit; Text.is_digit; Text.is_digit; Text.is_digit]].

(** [%m] is [1[0-2]|0[1-9]|[1-9]] *)
Definition group_m : list (list Class) :=
  [[Text.is_char "1"; Text.in_range "0" "2"];
   [Text.is_char "0"; Text.in_range "1" "9"];
   [Text.in_range "1" "9"]].

(** [%d] is [3[0-1]|[1-2]\d|0[1-9]|[1-9]| [1-9]] *)
Definition group_d : list (list Class) :=
  [[Text.is_char "3"; Text.in_range "0" "1"];
   [Text.in_range "1" "2"; Text.is_digit];
   [Text.is_char "0"; Text.in_range "1" "9"];
   [Text.in_range "1" "9"];
   [Text.is_char " "; Text.in_range "1" "9"]].

Definition dash : list (list Class) := [[Text.is_char "-"]].

(** [int(text)] of a matched group: white space around the digits is
    ignored. *)
Definition int_of_group (l : list ascii) : Z :=
  Text.digits_value 0 (Text.strip l).

(** The groups are matched from left to right.  No alternative that was
    passed over can succeed later: a two-character alternative of [%m] is
    followed by a dash where the one-character alternative would need the
    dash one place earlier, and [%d] comes last.  Text left after [%d]
    is the error [unconverted data remains]; all failures are
    [ValueError]s.  This is [strptime] on ASCII text: in a text with other
    characters Python's [\d] also matches the decimal digits of other
    scripts. *)
Definition strptime_Ymd (s : string) : option date :=
  '(y, r1) ← match_group group_Y (list_ascii_of_string s);
  '(_, r2) ← match_group dash r1;
  '(m, r3) ← match_group group_m r2;
  '(_, r4) ← match_group dash r3;
  '(d, r5) ← match_group group_d r4;
  if Text.is_nil r5
  then _check_date_fields (int_of_group y) (int_of_group m) (int_of_group d)
  else None.

End Datetime.

(** ** [stock_formatter.py] *)

Definition nl : string := String "010" EmptyString.

(** The chart glyphs U+1F4C8 (rising) and U+1F4C9 (falling), in UTF-8. *)
Definition up_glyph : string :=
  string_of_list_ascii ["240"; "159"; "147"; "136"]%char.
Definition down_glyph : string :=
  string_of_list_ascii ["240"; "159"; "147"; "137"]%char.

Fixpoint replicate_char (n : nat) (c : ascii) : string :=
  match n with
  | O => EmptyString
  | S n' => String c (replicate_char n' c)
  end.

(** [data.get(key, dflt)] *)
Definition dict_get (data : gmap string PyVal) (key : string) (dflt : PyVal) : PyVal :=
  default dflt (data !! key).

(** [if date:] for an [Optional[str]]: [None] and the empty string are false. *)
Definition date_given (date : option string) : bool :=
  match date with
  | Some (String _ _) => true
  | _ => false
  end.

(** The text returned by the historical branch. *)
Definition historical_text (symbol : string)
    (actual_date open_price close_price high low volume : PyVal)
    (timestamp : string) : string :=
  "Stock Historical Data (EOD): " +:+ symbol +:+ nl
  +:+ replicate_char 40 "=" +:+ nl
  +:+ "Date: " +:+ py_str actual_date +:+ nl
  +:+ "Opening Price: $" +:+ py_str open_price +:+ nl
  +:+ "Closing Price: $" +:+ py_str close_price +:+ nl
  +:+ "Day High: $" +:+ py_str high +:+ nl
  +:+ "Day Low: $" +:+ py_str low +:+ nl
  +:+ "Volume: " +:+ py_str volume +:+ nl
  +:+ "Retrieved at: " +:+ timestamp +:+ nl.

(** The line of the current-price text that reports the change. *)
Definition change_line (change_str percent_str direction : string) : string :=
  "Change: " +:+ change_str +:+ " (" +:+ percent_str +:+ ") " +:+ direction +:+ nl.

(** The text returned by the current-price branch. *)
Definition current_text (symbol : string) (price : PyVal)
    (change_str percent_str direction : string)
    (previous_close high low volume exchange : PyVal)
    (timestamp : string) : string :=
  "Stock Price Data: " +:+ symbol +:+ nl
  +:+ replicate_char 40 "=" +:+ nl
  +:+ "Current Price: $" +:+ py_str price +:+ nl
  +:+ change_line change_str percent_str direction
  +:+ "Previous Close: $" +:+ py_str previous_close +:+ nl
  +:+ "Day High: $" +:+ py_str high +:+ nl
  +:+ "Day Low: $" +:+ py_str low +:+ nl
  +:+ "Volume: " +:+ py_str volume +:+ nl
  +:+ "Exchange: " +:+ py_str exchange +:+ nl
  +:+ "Retrieved at: " +:+ timestamp +:+ nl.

(** [f"{'+' if x >= 0 else ''}{x:.2f}"] *)
Definition signed_2f (x : spec_float) : string :=
  (if Float.ge0 x then "+" else "") +:+ Float.format_2f x.

(** [except (ValueError, TypeError):] *)
Definition caught_by_formatter (e : Exn) : bool :=
  match exn_class e with
  | ValueError | TypeError => true
  | _ => false
  end.

(** The direction indicator with the two rendered numbers,
    [(direction, change_str, percent_str)]: the [if]/[try] statement of the
    current-price branch.  An exception that the [except] clause does not
    name leaves the function. *)
Definition change_parts (change percent_change : PyVal)
  : result (string * string * string) :=
  if isinstance_str_int_float change && negb (py_eq_str change "N/A") then
    let attempt :=
      match py_float change with
      | Raise e => Raise e
      | Ok change_val =>
          match py_float percent_change with
          | Raise e => Raise e
          | Ok percent_val =>
              Ok (if Float.ge0 change_val then up_glyph else down_glyph,
                  signed_2f change_val,
                  signed_2f percent_val +:+ "%")
          end
      end in
    match attempt with
    | Ok parts => Ok parts
    | Raise e =>
        if caught_by_formatter e
        then Ok (EmptyString, py_str change, py_str percent_change)
        else Raise e
    end
  else Ok (EmptyString, "N/A", "N/A").

(** [format_data(data, symbol, date=None)].  The time stamp, which the
    source reads from the clock on entry, is an argument. *)
Definition format_data (timestamp : string) (data : gmap string PyVal)
    (symbol : string) (date : option string) : result string :=
  if date_given date then
    let close_price := dict_get data "close" (PyStr "N/A") in
    let high := dict_get data "high" (PyStr "N/A") in
    let low := dict_get data "low" (PyStr "N/A") in
    let open_price := dict_get data "open" (PyStr "N/A") in
    let volume := dict_get data "volume" (PyStr "N/A") in
    let actual_date := dict_get data "datetime" (PyStr (default EmptyString date)) in
    Ok (historical_text symbol actual_date open_price close_price high low volume
          timestamp)
  else
    let price := dict_get data "close" (dict_get data "price" (PyStr "N/A")) in
    let change := dict_get data "change" (PyInt 0) in
    let percent_change := dict_get data "percent_change" (PyInt 0) in
    match change_parts change percent_change with
    | Raise e => Raise e
    | Ok (direction, change_str, percent_str) =>
        Ok (current_text symbol price change_str percent_str direction
              (dict_get data "previous_close" (PyStr "N/A"))
              (dict_get data "high" (PyStr "N/A"))
              (dict_get data "low" (PyStr "N/A"))
              (dict_get data "volume" (PyStr "N/A"))
              (dict_get data "exchange" (PyStr "N/A"))
              timestamp)
    end.

(** ** [server.py]: effects *)

(** What [as_json()] hands back: a dictionary, or [None]. *)
Abbreviation Payload := (option (gmap string PyVal)).

Inductive Event :=
| Log (message : string)
| QuoteCall (symbol : string)
| EodCall (symbol date : string).

(** The surroundings of one request: what the upstream client answers to
    [quote(symbol=...).as_json()] and to [eod(symbol=..., date=...).as_json()]
    (a payload, or an exception), the time stamp the clock shows, and the
    text of [traceback.format_exc()]. *)
Record World := MkWorld {
  quote_reply : string → result Payload;
  eod_reply : string → string → result Payload;
  clock : string;
  format_exc : Exn → string
}.

(** A computation lists the events it produced and returns or raises. *)
Definition IO (A : Type) : Type := World → list Event * result A.

#[global] Instance io_ret : MRet IO := λ A a _, ([], Ok a).

#[global] Instance io_bind : MBind IO := λ A B f m w,
  match m w with
  | (t, Ok a) => let '(t', r) := f a w in (t ++ t', r)
  | (t, Raise e) => (t, Raise e)
  end.

(** [try: body except Exception as e: handler] *)
Definition try_except {A} (body : IO A) (handler : Exn → IO A) : IO A := λ w,
  match body w with
  | (t, Ok a) => (t, Ok a)
  | (t, Raise e) => let '(t', r) := handler e w in (t ++ t', r)
  end.

Definition log (message : string) : IO unit := λ _, ([Log message], Ok tt).

Definition quote_as_json (symbol : string) : IO Payload :=
  λ w, ([QuoteCall symbol], quote_reply w symbol).

Definition eod_as_json (symbol date : string) : IO Payload :=
  λ w, ([EodCall symbol date], eod_reply w symbol date).

Definition log_traceback (e : Exn) : IO unit :=
  λ w, ([Log (format_exc w e)], Ok tt).

(** The call [format_data(data, symbol, date)]: on [None] the first
    [data.get] raises. *)
Definition call_format_data (data : Payload) (symbol : string) (date : option string)
  : IO string := λ w,
  match data with
  | Some d => ([], format_data (clock w) d symbol date)
  | None =>
      ([], Raise (MkExn AttributeError "'NoneType' object has no attribute 'get'"))
  end.

(** [not eod_data] is true for [None] and for the empty dictionary. *)
Definition payload_truthy (p : Payload) : bool :=
  match p with
  | Some d => bool_decide (d ≠ ∅)
  | None => false
  end.

(** [key in d and test(d[key])] *)
Definition key_satisfies (d : gmap string PyVal) (key : string) (test : PyVal → bool)
  : bool :=
  match d !! key with
  | Some v => test v
  | None => false
  end.

(** [key not in d or d[key] is None] *)
Definition missing_or_none (d : gmap string PyVal) (key : string) : bool :=
  match d !! key with
  | Some v => py_is_none v
  | None => true
  end.

Definition is_provider_call (ev : Event) : bool :=
  match ev with
  | Log _ => false
  | QuoteCall _ | EodCall _ _ => true
  end.

Definition provider_calls (trace : list Event) : list Event :=
  List.filter is_provider_call trace.

(** ** [server.py]: the two request handlers *)

Section Server.

(** [str.upper] *)
Variable upper : string → string.

Definition _fetch_current_stock_price (symbol : string) : IO string :=
  log ("Fetching current price for " +:+ symbol) ;;
  try_except
    (quote_data ← quote_as_json (upper symbol);
     call_format_data quote_data (upper symbol) None)
    (λ e,
       let error_msg :=
         "Error fetching stock data for " +:+ symbol +:+ ": " +:+ exn_text e in
       log error_msg ;;
       log_traceback e ;;
       mret ("Error: " +:+ error_msg)).

(** The checks on the payload of the end-of-day endpoint, in the order of
    the source. *)
Definition classify_eod (eod_data : Payload) (symbol date : string) : IO string :=
  if negb (payload_truthy eod_data) then
    mret ("Error: No EOD data returned for " +:+ symbol +:+ " on " +:+ date)
  else
    let d := default ∅ eod_data in
    if key_satisfies d "status" (λ v, py_eq_str v "error") then
      let error_msg := dict_get d "message" (PyStr "Unknown API error") in
      mret ("API Error: " +:+ py_str error_msg)
    else if key_satisfies d "code" (λ v, py_eq_int v 400) then
      let error_msg := dict_get d "message" (PyStr "No data available for this date") in
      mret ("No data available: " +:+ py_str error_msg)
    else if missing_or_none d "close" then
      mret ("No closing price data available for " +:+ symbol +:+ " on " +:+ date
            +:+ ". Markets may have been closed.")
    else call_format_data eod_data (upper symbol) (Some date).

Definition _fetch_historical_stock_price (symbol date : string) : IO string :=
  log ("Fetching EOD data for " +:+ symbol +:+ " on " +:+ date) ;;
  match Datetime.strptime_Ymd date with
  | None =>
      mret ("Error: Invalid date format '" +:+ date +:+ "'. Use YYYY-MM-DD")
  | Some date_obj =>
      if (5 <=? Datetime.weekday date_obj)%Z then
        mret ("Warning: " +:+ date
              +:+ " is a weekend. Stock markets are typically closed. Try a weekday date.")
      else
        try_except
          (eod_data ← eod_as_json (upper symbol) date;
           classify_eod eod_data symbol date)
          (λ e,
             let error_msg :=
               "Error fetching EOD data for " +:+ symbol +:+ " on " +:+ date
               +:+ ": " +:+ exn_text e in
             log error_msg ;;
             log_traceback e ;;
             mret ("Error: " +:+ error_msg))
  end.

End Server.

(** ** Notions of the specification, and sample data *)

(** The form the specification calls YYYY-MM-DD, read strictly: four
    digits, a dash, two digits, a dash, two digits, naming a day of the
    calendar. *)
Definition strict_YYYY_MM_DD (s : string) : option Datetime.date :=
  match list_ascii_of_string s with
  | [y1; y2; y3; y4; s1; m1; m2; s2; d1; d2] =>
      if forallb Text.is_digit [y1; y2; y3; y4; m1; m2; d1; d2]
         && Text.is_char "-" s1 && Text.is_char "-" s2
      then Datetime._check_date_fields
             (Text.digits_value 0 [y1; y2; y3; y4])
             (Text.digits_value 0 [m1; m2])
             (Text.digits_value 0 [d1; d2])
      else None
  | _ => None
  end.

(** The message of an error-shaped payload, or the given default. *)
Definition message_or (d : gmap string PyVal) (dflt : string) : string :=
  match d !! "message" with
  | Some m => py_str m
  | None => dflt
  end.

(** A payload is empty when it is [None] or has no key. *)
Definition empty_payload (p : Payload) : Prop := p = None ∨ p = Some ∅.

(** None of the numeric fields of a quote is present. *)
Definition no_numeric_field (data : gmap string PyVal) : Prop :=
  Forall (λ key, data !! key = None)
    ["close"; "price"; "change"; "percent_change";
     "previous_close"; "high"; "low"; "volume"].

(** The current-price text in which every value is the placeholder. *)
Definition all_placeholder_text (symbol direction : string) (exchange : PyVal)
    (timestamp : string) : string :=
  current_text symbol (PyStr "N/A") "N/A" "N/A" direction
    (PyStr "N/A") (PyStr "N/A") (PyStr "N/A") (PyStr "N/A") exchange timestamp.

(** [str.upper] on ASCII text. *)
Definition upper_char (c : ascii) : ascii :=
  if Text.in_range "a" "z" c then ascii_of_nat (Text.code c - 32) else c.

Fixpoint upper_ascii (s : string) : string :=
  match s with
  | EmptyString => EmptyString
  | String c s' => String (upper_char c) (upper_ascii s')
  end.

Definition sample_clock : string := "2024-01-15 10:30:00".

Definition world_replying (p : Payload) : World :=
  MkWorld (λ _, Ok p) (λ _ _, Ok p) sample_clock (λ e, "Traceback: " +:+ exn_text e).

Definition world_failing (e : Exn) : World :=
  MkWorld (λ _, Raise e) (λ _ _, Raise e) sample_clock (λ e, "Traceback: " +:+ exn_text e).

Definition connection_error : Exn := MkExn OtherException "connection refused".

(** [{close: 150.25, change: 2.5, percent_change: 1.69}] *)
Definition quote_rising : gmap string PyVal :=
  <["close" := PyFloat (Float.of_decimal false 15025 (-2))]>
  (<["change" := PyFloat (Float.of_decimal false 25 (-1))]>
  (<["percent_change" := PyFloat (Float.of_decimal false 169 (-2))]> ∅)).

(** [{close: -1.0, change: -3.2, percent_change: -2.1}] *)
Definition quote_falling : gmap string PyVal :=
  <["close" := PyFloat (Float.of_decimal true 1 0)]>
  (<["change" := PyFloat (Float.of_decimal true 32 (-1))]>
  (<["percent_change" := PyFloat (Float.of_decimal true 21 (-1))]> ∅)).

(** [{code: 400}] *)
Definition eod_code_400 : gmap string PyVal := {["code" := PyInt 400]}.

(** [{status: "error", code: 400, message: "Invalid symbol"}] *)
Definition eod_both_markers : gmap string PyVal :=
  <["status" := PyStr "error"]>
  (<["code" := PyInt 400]>
  (<["message" := PyStr "Invalid symbol"]> ∅)).

(** An integer of 401 digits, which [float()] cannot hold. *)
Definition huge_int : Z := 10 ^ 400.

(** Text made of ASCII characters only.  On such text the models of
    [strptime] and of [float()] read exactly what Python reads. *)
Definition ascii_text (s : string) : bool :=
  forallb (λ c, Nat.ltb (Text.code c) 128) (list_ascii_of_string s).

(** A value that is no text, or an ASCII one. *)
Definition ascii_value (v : PyVal) : bool :=
  match v with
  | PyStr s => ascii_text s
  | _ => true
  end.

(** An integer that [str()] converts under the default limit of 4300
    digits; any value that is no integer. *)
Definition short_int (v : PyVal) : bool :=
  match v with
  | PyInt n => (Z.abs n <? 10 ^ 4300)%Z
  | _ => true
  end.

(** Every integer of the payload is short enough for [str()]. *)
Definition short_ints (data : gmap string PyVal) : Prop :=
  map_Forall (λ _ v, short_int v = true) data.

(** ** [server.py]: resources, tools and prompts *)

(** The double quote. *)
Definition dq : string := String "034" EmptyString.

Section Interface.

Variable upper : string → string.

(** The resource [stock://{symbol}]. *)
Definition get_stock_price (symbol : string) : IO string :=
  log ("Resource call: stock://" +:+ symbol) ;;
  _fetch_current_stock_price upper symbol.

(** The resource [stock://{symbol}/closingdate/{date}]. *)
Definition get_stock_closing_price (symbol date : string) : IO string :=
  log ("Resource call: stock://" +:+ symbol +:+ "/closingdate/" +:+ date) ;;
  _fetch_historical_stock_price upper symbol date.

(** The tool of the same name. *)
Definition get_current_stock_price (symbol : string) : IO string :=
  log ("Tool call: get_current_stock_price for " +:+ symbol) ;;
  _fetch_current_stock_price upper symbol.

(** The tool of the same name. *)
Definition get_historical_stock_price (symbol date : string) : IO string :=
  log ("Tool call: get_historical_stock_price for " +:+ symbol +:+ " on " +:+ date) ;;
  _fetch_historical_stock_price upper symbol date.

(** The prompt [stock_current_price]. *)
Definition stock_current_price_prompt (symbol : string) : string :=
  nl
  +:+ "To get current stock price information for " +:+ upper symbol +:+ ":" +:+ nl
  +:+ nl
  +:+ "Use the resource: stock://" +:+ upper symbol +:+ "/" +:+ nl
  +:+ "Or use the tool: get_current_stock_price with symbol parameter" +:+ nl
  +:+ nl
  +:+ "This will provide you with:" +:+ nl
  +:+ "- Current stock price" +:+ nl
  +:+ "- Price change from previous close" +:+ nl
  +:+ "- Percentage change" +:+ nl
  +:+ "- Day's high and low prices" +:+ nl
  +:+ "- Trading volume" +:+ nl
  +:+ "- Exchange information" +:+ nl
  +:+ nl
  +:+ "Example usage:" +:+ nl
  +:+ "- For Apple stock: stock://AAPL/ or " +:+ "get_current_stock_price(symbol=" +:+ dq
      +:+ "AAPL" +:+ dq +:+ ")" +:+ nl
  +:+ "- For Microsoft stock: stock://MSFT/ or " +:+ "get_current_stock_price(symbol="
      +:+ dq +:+ "MSFT" +:+ dq +:+ ")" +:+ nl
  +:+ "- For Google stock: stock://GOOGL/ or " +:+ "get_current_stock_price(symbol=" +:+ dq
      +:+ "GOOGL" +:+ dq +:+ ")" +:+ nl
  +:+ nl
  +:+ "The data is fetched in real-time from the Twelve Data API and " +:+ "includes" +:+ nl
  +:+ "comprehensive market information with change indicators." +:+ nl.

(** The prompt [stock_historical_price]. *)
Definition stock_historical_price_prompt (symbol date : string) : string :=
  nl
  +:+ "To get historical End-of-Day (EOD) stock price information for " +:+ upper symbol
      +:+ " on " +:+ date +:+ ":" +:+ nl
  +:+ nl
  +:+ "Use the resource: stock://" +:+ upper symbol +:+ "/closingdate/" +:+ date +:+ nl
  +:+ "Or use the tool: get_historical_stock_price with symbol and " +:+ "date parameters"
      +:+ nl
  +:+ nl
  +:+ "This will provide you with:" +:+ nl
  +:+ "- Opening price for the day" +:+ nl
  +:+ "- Closing price for the day" +:+ nl
  +:+ "- Day's high and low prices" +:+ nl
  +:+ "- Trading volume" +:+ nl
  +:+ "- Actual date of the data" +:+ nl
  +:+ nl
  +:+ "Example usage:" +:+ nl
  +:+ "- For Apple stock on Jan 15, 2024: " +:+ "stock://AAPL/closingdate/2024-01-15 or "
      +:+ "get_historical_stock_price(symbol=" +:+ dq +:+ "AAPL" +:+ dq +:+ ", date=" +:+ dq
      +:+ "2024-01-15" +:+ dq +:+ ")" +:+ nl
  +:+ "- For Microsoft stock on Dec 31, 2023: "
      +:+ "stock://MSFT/closingdate/2023-12-31 or " +:+ "get_historical_stock_price(symbol="
      +:+ dq +:+ "MSFT" +:+ dq +:+ ", date=" +:+ dq +:+ "2023-12-31" +:+ dq +:+ ")" +:+ nl
  +:+ nl
  +:+ "Important notes:" +:+ nl
  +:+ "- Date must be in YYYY-MM-DD format" +:+ nl
  +:+ "- Weekend dates will return a warning (markets are typically " +:+ "closed)" +:+ nl
  +:+ "- Historical data is sourced from Twelve Data's EOD endpoint" +:+ nl
  +:+ "- Data may not be available for very recent dates or market " +:+ "holidays" +:+ nl.

End Interface.

(** ** Notions used by the further properties *)

(** The keys [format_data] looks up, in either mode. *)
Definition formatter_keys : list string :=
  ["close"; "high"; "low"; "open"; "volume"; "datetime"; "price"; "change";
   "percent_change"; "previous_close"; "exchange"].

(** The text returned by the [except] branch of the current-price handler. *)
Definition current_error_text (symbol : string) (e : Exn) : string :=
  "Error: " +:+ "Error fetching stock data for " +:+ symbol +:+ ": " +:+ exn_text e.

(** The text returned by the [except] branch of the historical handler. *)
Definition historical_error_text (symbol date : string) (e : Exn) : string :=
  "Error: " +:+ "Error fetching EOD data for " +:+ symbol +:+ " on " +:+ date
  +:+ ": " +:+ exn_text e.

(** The prefixes by which the answers of the historical handler are told
    apart. *)
Definition historical_prefixes : list string :=
  ["Error: "; "Warning: "; "API Error: "; "No data available: ";
   "No closing price data available for "; "Stock Historical Data (EOD): "].

(** A world that differs only in the text of the traceback. *)
Definition with_traceback (f : Exn → string) (w : World) : World :=
  MkWorld (quote_reply w) (eod_reply w) (clock w) f.

(** * Properties *)

(** ** The builtins on sample values

    The values below are those of CPython 3.11. *)

Example float_of_padded_text :
  Float.repr <$> float_of_str " 1_000.5 " = Some "1000.5".
Proof. vm_compute. reflexivity. Qed.

Example float_of_bad_texts :
  map float_of_str ["N/A"; "abc"; "1__0"; "1e"; "0x10"; "."; "1 2"; EmptyString]
  = [None; None; None; None; None; None; None; None].
Proof. vm_compute. reflexivity. Qed.

Example float_of_special_texts :
  map (λ s, Float.repr <$> float_of_str s) ["-Infinity"; "NaN"; "1e400"; "-1e-400"; "1E5"]
  = [Some "-inf"; Some "nan"; Some "inf"; Some "-0.0"; Some "100000.0"].
Proof. vm_compute. reflexivity. Qed.

Example format_2f_rounds_the_binary_value :
  map (λ s, Float.format_2f <$> float_of_str s)
    ["2.675"; "0.125"; "0.375"; "0.005"; "-0.001"; "1e23"]
  = [Some "2.67"; Some "0.12"; Some "0.38"; Some "0.01"; Some "-0.00";
     Some "99999999999999991611392.00"].
Proof. vm_compute. reflexivity. Qed.

Example repr_is_shortest :
  map (λ s, Float.repr <$> float_of_str s)
    ["0.1"; "150.25"; "1e16"; "1e15"; "0.0001"; "0.00001"; "5e-324";
     "123456789012345678"; "562949953421312.25"]
  = [Some "0.1"; Some "150.25"; Some "1e+16"; Some "1000000000000000.0";
     Some "0.0001"; Some "1e-05"; Some "5e-324"; Some "1.2345678901234568e+17";
     Some "562949953421312.2"].
Proof. vm_compute. reflexivity. Qed.

Example float_of_large_ints :
  is_Ok (py_float (PyInt (2 ^ 1024 - 2 ^ 970 - 1))) = true
  ∧ py_float (PyInt (2 ^ 1024 - 2 ^ 970))
    = Raise (MkExn OverflowError "int too large to convert to float").
Proof. split; vm_compute; reflexivity. Qed.

Example str_of_values :
  map py_str [PyNone; PyBool true; PyInt (-5); PyInt 0; PyStr "N/A";
              PyObj "list" "[1, 2]"]
  = ["None"; "True"; "-5"; "0"; "N/A"; "[1, 2]"].
Proof. vm_compute. reflexivity. Qed.

Example float_of_null_message :
  py_float PyNone
  = Raise (MkExn TypeError
             "float() argument must be a string or a real number, not 'NoneType'").
Proof. reflexivity. Qed.

Example strptime_samples :
  map Datetime.strptime_Ymd
    ["2024-02-29"; "2023-02-29"; "0000-01-01"; "2024-01- 5"; "2024-01-32";
     "2024-01-15 "; "20240-1-5"]
  = [Some (Datetime.MkDate 2024 2 29); None; None; Some (Datetime.MkDate 2024 1 5);
     None; None; None].
Proof. vm_compute. reflexivity. Qed.

Lemma weekday_range dt : (0 <= Datetime.weekday dt <= 6)%Z.
Proof.
  unfold Datetime.weekday.
  pose proof (Z.mod_pos_bound (Datetime.toordinal dt + 6) 7). lia.
Qed.

(** ** Running the handlers *)

Ltac run_io :=
  unfold mbind, mret, io_bind, io_ret, try_except, log, log_traceback,
    eod_as_json, quote_as_json, call_format_data; cbn [fst snd app].

Section Handlers.

Variable upper : string → string.

Lemma strptime_needs_text date d :
  Datetime.strptime_Ymd date = Some d → date_given (Some date) = true.
Proof. destruct date; [discriminate | reflexivity]. Qed.

Lemma format_data_historical ts data symbol date :
  date_given (Some date) = true →
  format_data ts data symbol (Some date)
  = Ok (historical_text symbol
          (dict_get data "datetime" (PyStr date))
          (dict_get data "open" (PyStr "N/A"))
          (dict_get data "close" (PyStr "N/A"))
          (dict_get data "high" (PyStr "N/A"))
          (dict_get data "low" (PyStr "N/A"))
          (dict_get data "volume" (PyStr "N/A")) ts).
Proof. intros Hd. unfold format_data. rewrite Hd. reflexivity. Qed.

Lemma fetch_historical_rejected symbol date w :
  Datetime.strptime_Ymd date = None →
  _fetch_historical_stock_price upper symbol date w
  = ([Log ("Fetching EOD data for " +:+ symbol +:+ " on " +:+ date)],
     Ok ("Error: Invalid date format '" +:+ date +:+ "'. Use YYYY-MM-DD")).
Proof.
  intros Hp. unfold _fetch_historical_stock_price. run_io.
  rewrite Hp. reflexivity.
Qed.

Lemma fetch_historical_weekend symbol date date_obj w :
  Datetime.strptime_Ymd date = Some date_obj →
  (5 <= Datetime.weekday date_obj)%Z →
  _fetch_historical_stock_price upper symbol date w
  = ([Log ("Fetching EOD data for " +:+ symbol +:+ " on " +:+ date)],
     Ok ("Warning: " +:+ date
         +:+ " is a weekend. Stock markets are typically closed. Try a weekday date.")).
Proof.
  intros Hp Hw. unfold _fetch_historical_stock_price. run_io.
  rewrite Hp. apply Z.leb_le in Hw. rewrite Hw. reflexivity.
Qed.

(** On a week day the end-of-day endpoint is called once, and a payload
    that comes back is classified. *)
Lemma fetch_historical_weekday symbol date date_obj w payload text :
  Datetime.strptime_Ymd date = Some date_obj →
  (Datetime.weekday date_obj < 5)%Z →
  eod_reply w (upper symbol) date = Ok payload →
  classify_eod upper payload symbol date w = ([], Ok text) →
  _fetch_historical_stock_price upper symbol date w
  = ([Log ("Fetching EOD data for " +:+ symbol +:+ " on " +:+ date);
      EodCall (upper symbol) date], Ok text).
Proof.
  intros Hp Hw Hr Hc. unfold _fetch_historical_stock_price. run_io.
  rewrite Hp. apply Z.leb_gt in Hw. rewrite Hw, Hr. cbn. rewrite Hc. reflexivity.
Qed.

(** On a week day the end-of-day endpoint is called exactly once, with the
    symbol in upper case and the date as given, whatever it answers. *)
Lemma fetch_historical_calls symbol date date_obj w :
  Datetime.strptime_Ymd date = Some date_obj →
  (Datetime.weekday date_obj < 5)%Z →
  provider_calls (fst (_fetch_historical_stock_price upper symbol date w))
  = [EodCall (upper symbol) date].
Proof.
  intros Hp Hw. unfold _fetch_historical_stock_price. run_io.
  rewrite Hp. apply Z.leb_gt in Hw. rewrite Hw.
  destruct (eod_reply w (upper symbol) date) as [payload|e]; [|reflexivity].
  unfold classify_eod.
  repeat match goal with
         | |- context [if ?c then _ else _] => destruct c
         end; try reflexivity.
  unfold call_format_data.
  destruct payload as [d|]; [|reflexivity].
  destruct (format_data (clock w) d (upper symbol) (Some date)); reflexivity.
Qed.

Lemma status_is_error d :
  key_satisfies d "status" (λ v, py_eq_str v "error") = true
  ↔ d !! "status" = Some (PyStr "error").
Proof.
  unfold key_satisfies. destruct (d !! "status") as [v|]; [|split; discriminate].
  destruct v; cbn; try (split; discriminate).
  rewrite String.eqb_eq. split; [intros ->; reflexivity | congruence].
Qed.

Lemma code_is_400 d :
  key_satisfies d "code" (λ v, py_eq_int v 400) = true
  ↔ ∃ v, d !! "code" = Some v ∧ py_eq_int v 400 = true.
Proof.
  unfold key_satisfies. destruct (d !! "code") as [v|].
  - split; [eauto | intros (v' & [= <-] & H); exact H].
  - split; [discriminate | intros (v' & [=] & _)].
Qed.

Lemma close_is_missing d :
  missing_or_none d "close" = true
  ↔ d !! "close" = None ∨ d !! "close" = Some PyNone.
Proof.
  unfold missing_or_none. destruct (d !! "close") as [v|].
  - destruct v; cbn; split; try discriminate; auto;
      intros [H | H]; discriminate.
  - split; auto.
Qed.

Lemma dict_get_message d dflt :
  py_str (dict_get d "message" (PyStr dflt)) = message_or d dflt.
Proof. unfold dict_get, message_or. destruct (d !! "message"); reflexivity. Qed.

Lemma classify_eod_empty payload symbol date w :
  empty_payload payload →
  classify_eod upper payload symbol date w
  = ([], Ok ("Error: No EOD data returned for " +:+ symbol +:+ " on " +:+ date)).
Proof.
  intros [-> | ->]; unfold classify_eod; cbn; [reflexivity|].
  rewrite bool_decide_eq_false_2 by (intros H; apply H; reflexivity).
  reflexivity.
Qed.

(** C1. On a week day, whatever payload the end-of-day endpoint returns,
    the handler answers by the first of these rules that applies: (a) an
    empty payload gives the no-EOD-data error; (b) a [status] equal to
    ["error"] gives the API error with the payload's message (or
    ["Unknown API error"]); (c) a [code] equal to 400 gives the
    no-data-available text with the message (or its default); (d) a
    missing or null [close] gives the no-closing-price text; (e) any other
    payload is formatted in historical mode.  Rule (b) does not look at
    [code]: a payload carrying both markers is an API error. *)
Theorem fetch_historical_classifies symbol date date_obj w payload :
  Datetime.strptime_Ymd date = Some date_obj →
  (Datetime.weekday date_obj < 5)%Z →
  eod_reply w (upper symbol) date = Ok payload →
  let text := snd (_fetch_historical_stock_price upper symbol date w) in
  (empty_payload payload →
   text = Ok ("Error: No EOD data returned for " +:+ symbol +:+ " on " +:+ date))
  ∧ ∀ d : gmap string PyVal, payload = Some d → d ≠ ∅ →
    let status_error := d !! "status" = Some (PyStr "error") in
    let code_400 := ∃ v, d !! "code" = Some v ∧ py_eq_int v 400 = true in
    let no_close := d !! "close" = None ∨ d !! "close" = Some PyNone in
    (status_error →
     text = Ok ("API Error: " +:+ message_or d "Unknown API error"))
    ∧ (¬ status_error → code_400 →
       text = Ok ("No data available: "
                  +:+ message_or d "No data available for this date"))
    ∧ (¬ status_error → ¬ code_400 → no_close →
       text = Ok ("No closing price data available for " +:+ symbol +:+ " on "
                  +:+ date +:+ ". Markets may have been closed."))
    ∧ (¬ status_error → ¬ code_400 → ¬ no_close →
       text = Ok (historical_text (upper symbol)
                    (dict_get d "datetime" (PyStr date))
                    (dict_get d "open" (PyStr "N/A"))
                    (dict_get d "close" (PyStr "N/A"))
                    (dict_get d "high" (PyStr "N/A"))
                    (dict_get d "low" (PyStr "N/A"))
                    (dict_get d "volume" (PyStr "N/A"))
                    (clock w))).
Proof.
  intros Hp Hw Hr text.
  assert (Hrun : ∀ t, classify_eod upper payload symbol date w = ([], Ok t) →
                      text = Ok t).
  { intros t Hc. unfold text.
    rewrite (fetch_historical_weekday _ _ _ _ _ _ Hp Hw Hr Hc). reflexivity. }
  split.
  - intros He. apply Hrun, classify_eod_empty, He.
  - intros d -> Hne status_error code_400 no_close.
    assert (Ht : payload_truthy (Some d) = true)
      by (cbn; apply bool_decide_eq_true_2, Hne).
    repeat split.
    + intros H. apply Hrun. unfold classify_eod. rewrite Ht. cbn [negb default from_option id].
      apply status_is_error in H. rewrite H, dict_get_message. reflexivity.
    + intros Hn H. apply Hrun. unfold classify_eod. rewrite Ht. cbn [negb default from_option id].
      destruct (key_satisfies d "status" _) eqn:E; [apply status_is_error in E; contradiction|].
      apply code_is_400 in H. rewrite H, dict_get_message. reflexivity.
    + intros Hn Hn' H. apply Hrun. unfold classify_eod. rewrite Ht.
      cbn [negb default from_option id].
      destruct (key_satisfies d "status" _) eqn:E; [apply status_is_error in E; contradiction|].
      destruct (key_satisfies d "code" _) eqn:E'; [apply code_is_400 in E'; contradiction|].
      apply close_is_missing in H. rewrite H. reflexivity.
    + intros Hn Hn' Hn''. apply Hrun. unfold classify_eod. rewrite Ht.
      cbn [negb default from_option id].
      destruct (key_satisfies d "status" _) eqn:E; [apply status_is_error in E; contradiction|].
      destruct (key_satisfies d "code" _) eqn:E'; [apply code_is_400 in E'; contradiction|].
      destruct (missing_or_none d "close") eqn:E''; [apply close_is_missing in E''; contradiction|].
      unfold call_format_data.
      rewrite (format_data_historical _ _ _ _ (strptime_needs_text _ _ Hp)).
      reflexivity.
Qed.

End Handlers.

(** ** The strict form is accepted by [strptime] *)

Lemma digit_cases c :
  Text.is_digit c = true →
  In c ["0"; "1"; "2"; "3"; "4"; "5"; "6"; "7"; "8"; "9"]%char.
Proof.
  destruct c as [[] [] [] [] [] [] [] []]; intros H;
    try discriminate H; cbn; tauto.
Qed.

Lemma digit_not_space c : Text.is_digit c = true → Text.is_space c = false.
Proof.
  intros H. apply digit_cases in H. cbn in H.
  repeat (destruct H as [<- | H]; [reflexivity|]). destruct H.
Qed.

Lemma lstrip_digits l : forallb Text.is_digit l = true → Text.lstrip l = l.
Proof.
  destruct l as [|c l]; cbn; [reflexivity|].
  intros [Hc _]%andb_true_iff. rewrite (digit_not_space _ Hc). reflexivity.
Qed.

Lemma strip_digits l : forallb Text.is_digit l = true → Text.strip l = l.
Proof.
  intros H. unfold Text.strip. rewrite (lstrip_digits _ H).
  rewrite lstrip_digits, rev_involutive; [reflexivity|].
  apply forallb_forall. intros c Hc%in_rev.
  revert c Hc. apply forallb_forall, H.
Qed.

Lemma int_of_digits l :
  forallb Text.is_digit l = true → Datetime.int_of_group l = Text.digits_value 0 l.
Proof. intros H. unfold Datetime.int_of_group. rewrite (strip_digits _ H). reflexivity. Qed.

Lemma month_group m1 m2 rest :
  Text.is_digit m1 = true → Text.is_digit m2 = true →
  (1 <= Text.digits_value 0 [m1; m2] <= 12)%Z →
  Datetime.match_group Datetime.group_m (m1 :: m2 :: "-"%char :: rest)
  = Some ([m1; m2], "-"%char :: rest).
Proof.
  intros H1%digit_cases H2%digit_cases. cbn in H1, H2.
  repeat (destruct H1 as [<- | H1]); try (destruct H1);
    repeat (destruct H2 as [<- | H2]); try (destruct H2);
    intros Hr; try reflexivity; vm_compute in Hr; destruct Hr as [Ha Hb];
    exfalso; first [apply Ha; reflexivity | apply Hb; reflexivity].
Qed.

Lemma day_group d1 d2 :
  Text.is_digit d1 = true → Text.is_digit d2 = true →
  (1 <= Text.digits_value 0 [d1; d2] <= 31)%Z →
  Datetime.match_group Datetime.group_d [d1; d2] = Some ([d1; d2], []).
Proof.
  intros H1%digit_cases H2%digit_cases. cbn in H1, H2.
  repeat (destruct H1 as [<- | H1]); try (destruct H1);
    repeat (destruct H2 as [<- | H2]); try (destruct H2);
    intros Hr; try reflexivity; vm_compute in Hr; destruct Hr as [Ha Hb];
    exfalso; first [apply Ha; reflexivity | apply Hb; reflexivity].
Qed.

Lemma dash_group rest :
  Datetime.match_group Datetime.dash ("-"%char :: rest) = Some (["-"%char], rest).
Proof. reflexivity. Qed.

Lemma days_in_month_le_31 y m : (Datetime._days_in_month y m <= 31)%Z.
Proof.
  unfold Datetime._days_in_month.
  destruct ((m =? 2)%Z && Datetime._is_leap y); [lia|].
  destruct (Z.to_nat m) as [|[|[|[|[|[|[|[|[|[|[|[|[|[|n]]]]]]]]]]]]]]; cbn; lia.
Qed.

Lemma check_date_fields_Some y m d dt :
  Datetime._check_date_fields y m d = Some dt →
  (1 <= m <= 12)%Z ∧ (1 <= d <= 31)%Z.
Proof.
  unfold Datetime._check_date_fields.
  destruct (_ && _) eqn:E; [|discriminate]. intros _.
  repeat (apply andb_true_iff in E; destruct E as [E ?]).
  pose proof (days_in_month_le_31 y m). lia.
Qed.

(** Every text of the strict form that names a day of the calendar is
    parsed by [strptime], to the same date. *)
Lemma strict_accepted_by_strptime s dt :
  strict_YYYY_MM_DD s = Some dt → Datetime.strptime_Ymd s = Some dt.
Proof.
  unfold strict_YYYY_MM_DD, Datetime.strptime_Ymd.
  destruct (list_ascii_of_string s)
    as [|y1 [|y2 [|y3 [|y4 [|s1 [|m1 [|m2 [|s2 [|d1 [|d2 [|x l]]]]]]]]]]];
    try discriminate.
  destruct (_ && _) eqn:E; [|discriminate].
  apply andb_true_iff in E as [E Hs2]. apply andb_true_iff in E as [E Hs1].
  apply Ascii.eqb_eq in Hs1, Hs2. subst s1 s2.
  cbn [forallb] in E.
  repeat (apply andb_true_iff in E; let H := fresh "Hd" in destruct E as [H E]).
  intros Hc. destruct (check_date_fields_Some _ _ _ _ Hc) as [Hm Hd'].
  cbn [Datetime.match_group Datetime.group_Y Datetime.match_seq].
  rewrite Hd, Hd0, Hd1, Hd2. cbn [mbind option_bind].
  rewrite dash_group. cbn [mbind option_bind].
  rewrite (month_group m1 m2 _ Hd3 Hd4 Hm). cbn [mbind option_bind].
  rewrite dash_group. cbn [mbind option_bind].
  rewrite (day_group d1 d2 Hd5 Hd6 Hd'). cbn [mbind option_bind Text.is_nil].
  rewrite !int_of_digits
    by (cbn; rewrite ?Hd, ?Hd0, ?Hd1, ?Hd2, ?Hd3, ?Hd4, ?Hd5, ?Hd6; reflexivity).
  exact Hc.
Qed.

(** ** Date validation *)

Example rejects_month_first :
  Datetime.strptime_Ymd "01-15-2024" = None.
Proof. reflexivity. Qed.

Example rejects_slashes :
  Datetime.strptime_Ymd "2024/01/15" = None.
Proof. reflexivity. Qed.

Example rejects_month_13 :
  Datetime.strptime_Ymd "2024-13-01" = None.
Proof. reflexivity. Qed.

Example accepts_one_digit_fields :
  Datetime.strptime_Ymd "2024-1-5" = Some (Datetime.MkDate 2024 1 5).
Proof. reflexivity. Qed.

Example saturday_2024_01_13 :
  Datetime.weekday <$> Datetime.strptime_Ymd "2024-01-13" = Some 5%Z.
Proof. reflexivity. Qed.

(** C2, as stated, fails: ["2024-1-5"] is not of the strict form
    YYYY-MM-DD, yet [strptime] reads it as Friday 5 January 2024, and the
    handler goes on to call the end-of-day endpoint with it. *)
Lemma lenient_date_reaches_provider :
  let r := _fetch_historical_stock_price upper_ascii "AAPL" "2024-1-5"
             (world_replying (Some eod_code_400)) in
  strict_YYYY_MM_DD "2024-1-5" = None
  ∧ snd r ≠ Ok ("Error: Invalid date format '2024-1-5'. Use YYYY-MM-DD")
  ∧ provider_calls (fst r) = [EodCall "AAPL" "2024-1-5"].
Proof.
  cbv zeta. split; [reflexivity|]. split; [|reflexivity].
  vm_compute. discriminate.
Qed.

Section DateChecks.

Variable upper : string → string.

(** C2, amended.  For every date text of ASCII characters that [strptime]
    with ['%Y-%m-%d'] rejects, the handler returns the invalid-format error
    and calls no endpoint.  By [strict_accepted_by_strptime] these texts
    are all outside the strict form.  (The text is taken ASCII because
    there [strptime_Ymd] rejects exactly what [strptime] rejects; nothing
    is stated of a text with other characters.) *)
Theorem fetch_historical_invalid_date symbol date w :
  ascii_text date = true →
  Datetime.strptime_Ymd date = None →
  let r := _fetch_historical_stock_price upper symbol date w in
  snd r = Ok ("Error: Invalid date format '" +:+ date +:+ "'. Use YYYY-MM-DD")
  ∧ provider_calls (fst r) = [].
Proof.
  intros _ Hp r. unfold r.
  rewrite (fetch_historical_rejected upper symbol date w Hp).
  split; reflexivity.
Qed.

(** C3. For every date text that parses and falls on a Saturday or a
    Sunday, the handler returns the weekend warning and calls no
    endpoint. *)
Theorem fetch_historical_weekend_warning symbol date date_obj w :
  Datetime.strptime_Ymd date = Some date_obj →
  Datetime.weekday date_obj = 5%Z ∨ Datetime.weekday date_obj = 6%Z →
  let r := _fetch_historical_stock_price upper symbol date w in
  snd r = Ok ("Warning: " +:+ date
              +:+ " is a weekend. Stock markets are typically closed. Try a weekday date.")
  ∧ provider_calls (fst r) = [].
Proof.
  intros Hp Hw r. unfold r.
  rewrite (fetch_historical_weekend upper symbol date date_obj w Hp) by lia.
  split; reflexivity.
Qed.

End DateChecks.

Lemma fetch_historical_invalid_date_witness :
  ascii_text "2024-13-01" = true
  ∧ Datetime.strptime_Ymd "2024-13-01" = None
  ∧ snd (_fetch_historical_stock_price upper_ascii "aapl" "2024-13-01"
           (world_replying (Some eod_code_400)))
    = Ok "Error: Invalid date format '2024-13-01'. Use YYYY-MM-DD"
  ∧ provider_calls
      (fst (_fetch_historical_stock_price upper_ascii "aapl" "2024-13-01"
              (world_replying (Some eod_code_400)))) = [].
Proof.
  split; [reflexivity|]. split; [reflexivity|].
  apply (fetch_historical_invalid_date upper_ascii "aapl" "2024-13-01");
    reflexivity.
Defined.

Lemma fetch_historical_weekend_warning_witness :
  Datetime.strptime_Ymd "2024-01-13" = Some (Datetime.MkDate 2024 1 13)
  ∧ (Datetime.weekday (Datetime.MkDate 2024 1 13) = 5%Z
     ∨ Datetime.weekday (Datetime.MkDate 2024 1 13) = 6%Z)
  ∧ snd (_fetch_historical_stock_price upper_ascii "aapl" "2024-01-13"
           (world_replying (Some eod_code_400)))
    = Ok "Warning: 2024-01-13 is a weekend. Stock markets are typically closed. Try a weekday date."
  ∧ provider_calls
      (fst (_fetch_historical_stock_price upper_ascii "aapl" "2024-01-13"
              (world_replying (Some eod_code_400)))) = [].
Proof.
  split; [reflexivity|]. split; [left; reflexivity|].
  apply (fetch_historical_weekend_warning upper_ascii "aapl" "2024-01-13"
           (Datetime.MkDate 2024 1 13)); [reflexivity | left; reflexivity].
Defined.

Lemma fetch_historical_classifies_witness :
  Datetime.strptime_Ymd "2024-01-15" = Some (Datetime.MkDate 2024 1 15)
  ∧ (Datetime.weekday (Datetime.MkDate 2024 1 15) < 5)%Z
  ∧ eod_reply (world_replying (Some eod_both_markers)) (upper_ascii "aapl") "2024-01-15"
    = Ok (Some eod_both_markers)
  ∧ snd (_fetch_historical_stock_price upper_ascii "aapl" "2024-01-15"
           (world_replying (Some eod_both_markers)))
    = Ok "API Error: Invalid symbol".
Proof.
  split; [reflexivity|]. split; [reflexivity|]. split; [reflexivity|].
  destruct (fetch_historical_classifies upper_ascii "aapl" "2024-01-15"
              (Datetime.MkDate 2024 1 15) (world_replying (Some eod_both_markers))
              (Some eod_both_markers) eq_refl eq_refl eq_refl) as [_ Hd].
  destruct (Hd eod_both_markers eq_refl) as [Hb _].
  - intros He. apply (f_equal (lookup "status")) in He. discriminate He.
  - apply Hb. reflexivity.
Defined.

(** The two sample payloads of the specification. *)
Example eod_code_400_text :
  snd (_fetch_historical_stock_price upper_ascii "aapl" "2024-01-15"
         (world_replying (Some eod_code_400)))
  = Ok "No data available: No data available for this date".
Proof. reflexivity. Qed.

Example eod_both_markers_text :
  snd (_fetch_historical_stock_price upper_ascii "aapl" "2024-01-15"
         (world_replying (Some eod_both_markers)))
  = Ok "API Error: Invalid symbol".
Proof. reflexivity. Qed.

(** ** The change line of the current-price text *)

Lemma py_float_not_placeholder f : py_float (PyStr "N/A") ≠ Ok f.
Proof. discriminate. Qed.

(** What [float()] accepts is a [str], an [int], a [bool] or a [float], and
    never the placeholder text. *)
Lemma py_float_Ok_guard v f :
  py_float v = Ok f →
  isinstance_str_int_float v && negb (py_eq_str v "N/A") = true.
Proof.
  destruct v as [| b | n | g | s | ty text]; cbn [py_float]; try discriminate;
    try reflexivity.
  cbn [isinstance_str_int_float py_eq_str andb]. intros H.
  destruct (String.eqb s "N/A") eqn:E; [|reflexivity].
  apply String.eqb_eq in E. subst s. discriminate H.
Qed.

(** The class of the exception [float()] raises is decided by the type of
    its argument. *)
Lemma py_float_Raise_class v e :
  py_float v = Raise e →
  exn_class e = match v with
                | PyStr _ => ValueError
                | PyInt _ => OverflowError
                | _ => TypeError
                end.
Proof.
  destruct v as [| b | n | g | s | ty text]; cbn [py_float]; try discriminate.
  - intros [= <-]. reflexivity.
  - destruct (Float.of_Z n); try discriminate. intros [= <-]. reflexivity.
  - destruct (float_of_str s); [discriminate|]. intros [= <-]. reflexivity.
  - intros [= <-]. reflexivity.
Qed.

Lemma change_parts_numeric change percent_change cv pv :
  py_float change = Ok cv →
  py_float percent_change = Ok pv →
  change_parts change percent_change
  = Ok (if Float.ge0 cv then up_glyph else down_glyph,
        signed_2f cv, signed_2f pv +:+ "%").
Proof.
  intros Hc Hp. unfold change_parts.
  rewrite (py_float_Ok_guard _ _ Hc), Hc, Hp. reflexivity.
Qed.

(** When [float()] rejects [percent_change] with an exception the formatter
    catches, the change is not formatted either. *)
Lemma change_parts_percent_gate change percent_change cv e :
  py_float change = Ok cv →
  py_float percent_change = Raise e →
  caught_by_formatter e = true →
  change_parts change percent_change
  = Ok (EmptyString, py_str change, py_str percent_change).
Proof.
  intros Hc Hp He. unfold change_parts.
  rewrite (py_float_Ok_guard _ _ Hc), Hc, Hp, He. reflexivity.
Qed.

Lemma change_parts_change_rejected change percent_change e :
  py_float change = Raise e →
  caught_by_formatter e = true →
  change_parts change percent_change
  = if isinstance_str_int_float change && negb (py_eq_str change "N/A")
    then Ok (EmptyString, py_str change, py_str percent_change)
    else Ok (EmptyString, "N/A", "N/A").
Proof.
  intros Hc He. unfold change_parts. rewrite Hc, He. reflexivity.
Qed.

(** [format_data] can only fail with the [OverflowError] of [float()] on an
    integer, and only in current-price mode. *)
Lemma format_data_raises_only_overflow ts data symbol date e :
  format_data ts data symbol date = Raise e →
  date_given date = false
  ∧ exn_class e = OverflowError
  ∧ exn_text e = "int too large to convert to float".
Proof.
  unfold format_data. destruct (date_given date); [discriminate|].
  destruct (change_parts _ _) as [[[dir cs] ps]|e'] eqn:E; [discriminate|].
  intros [= ->]. split; [reflexivity|].
  unfold change_parts in E.
  destruct (_ && _); [|discriminate].
  assert (Hov : ∀ v, py_float v = Raise e → caught_by_formatter e = false →
                     exn_class e = OverflowError
                     ∧ exn_text e = "int too large to convert to float").
  { intros v Hv Hn. pose proof (py_float_Raise_class _ _ Hv) as Hcl.
    unfold caught_by_formatter in Hn. rewrite Hcl in Hn.
    destruct v as [| b | n | g | s | ty text]; try discriminate Hn.
    cbn [py_float] in Hv. destruct (Float.of_Z n); try discriminate Hv.
    injection Hv as <-. split; reflexivity. }
  destruct (py_float (dict_get data "change" (PyInt 0))) as [cv|e1] eqn:E1.
  - destruct (py_float (dict_get data "percent_change" (PyInt 0))) as [pv|e2] eqn:E2;
      [discriminate|].
    destruct (caught_by_formatter e2) eqn:C; [discriminate|].
    injection E as ->. exact (Hov _ E2 C).
  - destruct (caught_by_formatter e1) eqn:C; [discriminate|].
    injection E as ->. exact (Hov _ E1 C).
Qed.

(** The [.2f] rendering of a finite number ends with a point and exactly
    two decimal digits. *)
Lemma pad2_two_digits n :
  (0 <= n < 100)%Z →
  ∃ d1 d2, Float.pad2 n = String d1 (String d2 EmptyString)
           ∧ Text.is_digit d1 = true ∧ Text.is_digit d2 = true.
Proof.
  intros Hn.
  set (two_digits := λ s : string,
         match s with
         | String d1 (String d2 EmptyString) => Text.is_digit d1 && Text.is_digit d2
         | _ => false
         end).
  assert (Hall : forallb (λ k, two_digits (Float.pad2 (Z.of_nat k))) (seq 0 100) = true)
    by (vm_compute; reflexivity).
  rewrite forallb_forall in Hall.
  specialize (Hall (Z.to_nat n)). rewrite Z2Nat.id in Hall by lia.
  assert (Hin : In (Z.to_nat n) (seq 0 100)) by (apply in_seq; lia).
  apply Hall in Hin. unfold two_digits in Hin.
  destruct (Float.pad2 n) as [|d1 [|d2 [|]]]; try discriminate Hin.
  apply andb_true_iff in Hin. eauto.
Qed.

Lemma format_2f_two_decimals f :
  Float.is_finite f = true →
  ∃ sign int_part d1 d2,
    Float.format_2f f = sign +:+ int_part +:+ "." +:+ String d1 (String d2 EmptyString)
    ∧ Text.is_digit d1 = true ∧ Text.is_digit d2 = true.
Proof.
  assert (H : ∀ neg h, ∃ sign int_part d1 d2,
             Float.fixed2 neg h
             = sign +:+ int_part +:+ "." +:+ String d1 (String d2 EmptyString)
             ∧ Text.is_digit d1 = true ∧ Text.is_digit d2 = true).
  { intros neg h.
    destruct (pad2_two_digits (h mod 100)) as (d1 & d2 & Hp & H1 & H2);
      [apply Z.mod_pos_bound; lia|].
    exists (if neg then "-" else ""), (pretty (h / 100)%Z), d1, d2.
    unfold Float.fixed2. rewrite Hp. auto. }
  destruct f as [s | s | | s m e]; try discriminate; intros _; apply H.
Qed.

(** ** The formatter *)

(** C4 fails on the code (one defect, shared with C10): the [except]
    clause of the formatter names [ValueError] and [TypeError] only, so the
    [OverflowError] that [float()] raises on an integer too large for a
    [float] leaves [format_data]. *)
Theorem format_data_overflow_escapes :
  format_data sample_clock {["change" := PyInt huge_int]} "AAPL" None
  = Raise (MkExn OverflowError "int too large to convert to float").
Proof. vm_compute. reflexivity. Qed.

(** C10 fails on the code (the defect of C4): with a [change] that converts
    and a [percent_change] that is an integer too large for a [float],
    nothing is rendered; the [OverflowError] leaves [format_data]. *)
Theorem percent_overflow_escapes :
  format_data sample_clock
    (<["change" := PyFloat (Float.of_decimal false 25 (-1))]>
       {["percent_change" := PyInt huge_int]})
    "AAPL" None
  = Raise (MkExn OverflowError "int too large to convert to float").
Proof. vm_compute. reflexivity. Qed.

(** At the boundary of the request the exception is caught: the caller
    gets an error text in place of the quote. *)
Example overflow_at_the_boundary :
  snd (_fetch_current_stock_price upper_ascii "aapl"
         (world_replying (Some {["change" := PyInt huge_int]})))
  = Ok "Error: Error fetching stock data for aapl: int too large to convert to float".
Proof. vm_compute. reflexivity. Qed.

(** Short of that overflow, [percent_change] gates the rendering of
    [change]: when [py_float] rejects it with a [ValueError] (a text that is
    no number; for ASCII text this is what [float()] rejects) or a
    [TypeError] (a null, a container), both are rendered by [str()] and the
    direction is empty. *)
Lemma percent_gates_change ts data symbol cv e :
  py_float (dict_get data "change" (PyInt 0)) = Ok cv →
  py_float (dict_get data "percent_change" (PyInt 0)) = Raise e →
  caught_by_formatter e = true →
  format_data ts data symbol None
  = Ok (current_text symbol
          (dict_get data "close" (dict_get data "price" (PyStr "N/A")))
          (py_str (dict_get data "change" (PyInt 0)))
          (py_str (dict_get data "percent_change" (PyInt 0)))
          EmptyString
          (dict_get data "previous_close" (PyStr "N/A"))
          (dict_get data "high" (PyStr "N/A"))
          (dict_get data "low" (PyStr "N/A"))
          (dict_get data "volume" (PyStr "N/A"))
          (dict_get data "exchange" (PyStr "N/A"))
          ts).
Proof.
  intros Hc Hp He. unfold format_data. cbn [date_given].
  rewrite (change_parts_percent_gate _ _ _ _ Hc Hp He). reflexivity.
Qed.

Example percent_text_gates_change :
  format_data sample_clock
    (<["change" := PyStr "2.5"]> {["percent_change" := PyStr "abc"]}) "AAPL" None
  = Ok (current_text "AAPL" (PyStr "N/A") "2.5" "abc" EmptyString
          (PyStr "N/A") (PyStr "N/A") (PyStr "N/A") (PyStr "N/A") (PyStr "N/A")
          sample_clock).
Proof. vm_compute. reflexivity. Qed.

Example percent_null_gates_change :
  format_data sample_clock
    (<["change" := PyStr "2.5"]> {["percent_change" := PyNone]}) "AAPL" None
  = Ok (current_text "AAPL" (PyStr "N/A") "2.5" "None" EmptyString
          (PyStr "N/A") (PyStr "N/A") (PyStr "N/A") (PyStr "N/A") (PyStr "N/A")
          sample_clock).
Proof. vm_compute. reflexivity. Qed.

(** C5, as stated, fails: with no numeric field at all the change and its
    percentage are not the placeholder, whatever the direction shown. *)
Lemma defaults_are_not_placeholders :
  no_numeric_field ∅
  ∧ ∀ direction : string,
      format_data sample_clock ∅ "AAPL" None
      ≠ Ok (all_placeholder_text "AAPL" direction (PyStr "N/A") sample_clock).
Proof.
  split.
  - unfold no_numeric_field. repeat constructor.
  - intros direction H. vm_compute in H. discriminate H.
Qed.

(** C5, amended.  In current-price mode a payload with none of the numeric
    fields is rendered without an exception: the price, the previous
    close, the day's high and low, and the volume are the placeholder
    (the exchange too when it is absent), while the change and its
    percentage, which default to 0, are rendered as [+0.00 (+0.00%)] with
    the rising glyph. *)
Theorem format_data_no_numeric_field ts data symbol :
  no_numeric_field data →
  format_data ts data symbol None
  = Ok (current_text symbol (PyStr "N/A") "+0.00" "+0.00%" up_glyph
          (PyStr "N/A") (PyStr "N/A") (PyStr "N/A") (PyStr "N/A")
          (dict_get data "exchange" (PyStr "N/A")) ts).
Proof.
  unfold no_numeric_field. rewrite !Forall_cons.
  intros (Hclose & Hprice & Hchange & Hpercent & Hprev & Hhigh & Hlow & Hvol & _).
  unfold format_data, dict_get. cbn [date_given].
  rewrite Hclose, Hprice, Hchange, Hpercent, Hprev, Hhigh, Hlow, Hvol.
  cbn [default from_option id].
  replace (change_parts (PyInt 0) (PyInt 0)) with
    (Ok (A := string * string * string) (up_glyph, "+0.00", "+0.00%"))
    by (vm_compute; reflexivity).
  reflexivity.
Qed.

Lemma format_data_no_numeric_field_witness :
  no_numeric_field {["exchange" := PyStr "NASDAQ"]}
  ∧ format_data sample_clock {["exchange" := PyStr "NASDAQ"]} "AAPL" None
    = Ok (current_text "AAPL" (PyStr "N/A") "+0.00" "+0.00%" up_glyph
            (PyStr "N/A") (PyStr "N/A") (PyStr "N/A") (PyStr "N/A")
            (PyStr "NASDAQ") sample_clock).
Proof.
  assert (H : no_numeric_field {["exchange" := PyStr "NASDAQ"]})
    by (unfold no_numeric_field; repeat constructor).
  split; [exact H|].
  exact (format_data_no_numeric_field sample_clock _ "AAPL" H).
Defined.

(** The current-price text when both numbers convert. *)
Lemma format_data_converted ts data symbol cv pv :
  py_float (dict_get data "change" (PyInt 0)) = Ok cv →
  py_float (dict_get data "percent_change" (PyInt 0)) = Ok pv →
  format_data ts data symbol None
  = Ok (current_text symbol
          (dict_get data "close" (dict_get data "price" (PyStr "N/A")))
          (signed_2f cv) (signed_2f pv +:+ "%")
          (if Float.ge0 cv then up_glyph else down_glyph)
          (dict_get data "previous_close" (PyStr "N/A"))
          (dict_get data "high" (PyStr "N/A"))
          (dict_get data "low" (PyStr "N/A"))
          (dict_get data "volume" (PyStr "N/A"))
          (dict_get data "exchange" (PyStr "N/A"))
          ts).
Proof.
  intros Hc Hp. unfold format_data. cbn [date_given].
  rewrite (change_parts_numeric _ _ _ _ Hc Hp). reflexivity.
Qed.

(** C6, as stated, fails: a [change] that converts is not enough.  With a
    [percent_change] that is no number the change is left as received,
    without sign, decimals or glyph. *)
Lemma change_alone_is_not_formatted :
  let data : gmap string PyVal :=
    <["change" := PyFloat (Float.of_decimal false 25 (-1))]>
      {["percent_change" := PyStr "abc"]} in
  py_float (dict_get data "change" (PyInt 0)) = Ok (Float.of_decimal false 25 (-1))
  ∧ format_data sample_clock data "AAPL" None
    = Ok (current_text "AAPL" (PyStr "N/A") "2.5" "abc" EmptyString
            (PyStr "N/A") (PyStr "N/A") (PyStr "N/A") (PyStr "N/A") (PyStr "N/A")
            sample_clock)
  ∧ ∀ percent_str : string,
      format_data sample_clock data "AAPL" None
      ≠ Ok (current_text "AAPL" (PyStr "N/A") "+2.50" percent_str up_glyph
              (PyStr "N/A") (PyStr "N/A") (PyStr "N/A") (PyStr "N/A") (PyStr "N/A")
              sample_clock).
Proof.
  cbv zeta. split; [reflexivity|]. split; [vm_compute; reflexivity|].
  intros percent_str H. vm_compute in H. discriminate H.
Qed.

(** C6, amended.  In current-price mode, whenever [float()] converts both
    [change] and [percent_change] (each 0 when absent), the direction is
    the rising glyph if [change >= 0] and the falling one otherwise, the
    change is rendered by [.2f] after a [+] when it is not negative, and
    the percentage likewise, followed by [%].  By
    [format_2f_two_decimals] a finite number so rendered has exactly two
    decimals. *)
Theorem format_data_numeric_change ts data symbol cv pv :
  py_float (dict_get data "change" (PyInt 0)) = Ok cv →
  py_float (dict_get data "percent_change" (PyInt 0)) = Ok pv →
  format_data ts data symbol None
  = Ok (current_text symbol
          (dict_get data "close" (dict_get data "price" (PyStr "N/A")))
          ((if Float.ge0 cv then "+" else "") +:+ Float.format_2f cv)
          ((if Float.ge0 pv then "+" else "") +:+ Float.format_2f pv +:+ "%")
          (if Float.ge0 cv then up_glyph else down_glyph)
          (dict_get data "previous_close" (PyStr "N/A"))
          (dict_get data "high" (PyStr "N/A"))
          (dict_get data "low" (PyStr "N/A"))
          (dict_get data "volume" (PyStr "N/A"))
          (dict_get data "exchange" (PyStr "N/A"))
          ts).
Proof.
  intros Hc Hp. rewrite (format_data_converted _ _ _ _ _ Hc Hp).
  unfold signed_2f. destruct (Float.ge0 pv); reflexivity.
Qed.

Lemma format_data_numeric_change_witness :
  py_float (dict_get quote_rising "change" (PyInt 0))
  = Ok (Float.of_decimal false 25 (-1))
  ∧ py_float (dict_get quote_rising "percent_change" (PyInt 0))
    = Ok (Float.of_decimal false 169 (-2))
  ∧ format_data sample_clock quote_rising "AAPL" None
    = Ok (current_text "AAPL" (PyFloat (Float.of_decimal false 15025 (-2)))
            "+2.50" "+1.69%" up_glyph
            (PyStr "N/A") (PyStr "N/A") (PyStr "N/A") (PyStr "N/A") (PyStr "N/A")
            sample_clock).
Proof.
  split; [reflexivity|]. split; [reflexivity|].
  rewrite (format_data_numeric_change sample_clock quote_rising "AAPL"
             (Float.of_decimal false 25 (-1)) (Float.of_decimal false 169 (-2))
             eq_refl eq_refl).
  vm_compute. reflexivity.
Defined.

Lemma string_app_assoc (a b c : string) : (a +:+ b) +:+ c = a +:+ (b +:+ c).
Proof.
  induction a as [|x a IH]; [reflexivity|].
  change (String x ((a +:+ b) +:+ c) = String x (a +:+ (b +:+ c))).
  rewrite IH. reflexivity.
Qed.

Lemma current_text_has_change_line symbol price cs ps direction prev high low volume
    exchange ts :
  Text.contains
    (current_text symbol price cs ps direction prev high low volume exchange ts)
    (change_line cs ps direction).
Proof.
  exists ("Stock Price Data: " +:+ symbol +:+ nl +:+ replicate_char 40 "=" +:+ nl
          +:+ "Current Price: $" +:+ py_str price +:+ nl).
  eexists. unfold current_text. rewrite !string_app_assoc. reflexivity.
Qed.

(** The two sample quotes of the specification. *)
Example rising_quote_change_line :
  ∃ text, format_data sample_clock quote_rising "AAPL" None = Ok text
          ∧ Text.contains text ("Change: +2.50 (+1.69%) " +:+ up_glyph +:+ nl).
Proof.
  eexists. split; [apply format_data_converted; reflexivity|].
  apply (current_text_has_change_line _ _ "+2.50" "+1.69%" up_glyph).
Qed.

Example falling_quote_change_line :
  ∃ text, format_data sample_clock quote_falling "AAPL" None = Ok text
          ∧ Text.contains text ("Change: -3.20 (-2.10%) " +:+ down_glyph +:+ nl).
Proof.
  eexists. split; [apply format_data_converted; reflexivity|].
  apply (current_text_has_change_line _ _ "-3.20" "-2.10%" down_glyph).
Qed.

(** C7, as stated, fails: a null [change] is present and does not convert,
    yet neither it nor [percent_change] is rendered as received; both
    become the placeholder. *)
Lemma null_change_is_placeholder :
  let data : gmap string PyVal :=
    <["change" := PyNone]> {["percent_change" := PyStr "1.5"]} in
  data !! "change" = Some PyNone
  ∧ is_Ok (py_float PyNone) = false
  ∧ format_data sample_clock data "AAPL" None
    = Ok (current_text "AAPL" (PyStr "N/A") "N/A" "N/A" EmptyString
            (PyStr "N/A") (PyStr "N/A") (PyStr "N/A") (PyStr "N/A") (PyStr "N/A")
            sample_clock)
  ∧ format_data sample_clock data "AAPL" None
    ≠ Ok (current_text "AAPL" (PyStr "N/A") (py_str PyNone) (py_str (PyStr "1.5"))
            EmptyString
            (PyStr "N/A") (PyStr "N/A") (PyStr "N/A") (PyStr "N/A") (PyStr "N/A")
            sample_clock).
Proof.
  cbv zeta. split; [reflexivity|]. split; [reflexivity|].
  split; [vm_compute; reflexivity|].
  intros H. vm_compute in H. discriminate H.
Qed.

(** C7, amended.  In current-price mode, when [change] is present and
    [float()] rejects it with a [ValueError] or a [TypeError], the direction
    is empty; a [change] that is a text other than ["N/A"] is rendered as
    received, together with [str(percent_change)] (["0"] when
    [percent_change] is absent); any other [change] (a null, a container,
    the text ["N/A"]) makes both the placeholder.  (A [change] that is a
    text is taken ASCII, because there [py_float] rejects exactly what
    [float()] rejects; nothing is stated of a text with other characters.) *)
Theorem format_data_unconvertible_change ts data symbol change e :
  data !! "change" = Some change →
  ascii_value change = true →
  py_float change = Raise e →
  caught_by_formatter e = true →
  let percent_change := dict_get data "percent_change" (PyInt 0) in
  let as_received :=
    match change with
    | PyStr s => negb (String.eqb s "N/A")
    | _ => false
    end in
  format_data ts data symbol None
  = Ok (current_text symbol
          (dict_get data "close" (dict_get data "price" (PyStr "N/A")))
          (if as_received then py_str change else "N/A")
          (if as_received then py_str percent_change else "N/A")
          EmptyString
          (dict_get data "previous_close" (PyStr "N/A"))
          (dict_get data "high" (PyStr "N/A"))
          (dict_get data "low" (PyStr "N/A"))
          (dict_get data "volume" (PyStr "N/A"))
          (dict_get data "exchange" (PyStr "N/A"))
          ts).
Proof.
  intros Hl _ Hc He percent_change as_received.
  unfold format_data. cbn [date_given].
  assert (Hg : dict_get data "change" (PyInt 0) = change)
    by (unfold dict_get; rewrite Hl; reflexivity).
  rewrite Hg. fold percent_change.
  rewrite (change_parts_change_rejected _ _ _ Hc He).
  assert (Hr : isinstance_str_int_float change && negb (py_eq_str change "N/A")
               = as_received).
  { pose proof (py_float_Raise_class _ _ Hc) as Hcl.
    unfold caught_by_formatter in He. rewrite Hcl in He.
    destruct change; try discriminate Hc; try discriminate He; reflexivity. }
  rewrite Hr. destruct as_received; reflexivity.
Qed.

Lemma format_data_unconvertible_change_witness :
  ({["change" := PyStr "abc"]} : gmap string PyVal) !! "change" = Some (PyStr "abc")
  ∧ ascii_value (PyStr "abc") = true
  ∧ py_float (PyStr "abc")
    = Raise (MkExn ValueError "could not convert string to float: 'abc'")
  ∧ caught_by_formatter
      (MkExn ValueError "could not convert string to float: 'abc'") = true
  ∧ format_data sample_clock {["change" := PyStr "abc"]} "AAPL" None
    = Ok (current_text "AAPL" (PyStr "N/A") "abc" "0" EmptyString
            (PyStr "N/A") (PyStr "N/A") (PyStr "N/A") (PyStr "N/A") (PyStr "N/A")
            sample_clock).
Proof.
  assert (Hl : ({["change" := PyStr "abc"]} : gmap string PyVal) !! "change"
               = Some (PyStr "abc")) by reflexivity.
  assert (Hc : py_float (PyStr "abc")
               = Raise (MkExn ValueError "could not convert string to float: 'abc'"))
    by reflexivity.
  split; [exact Hl|]. split; [reflexivity|]. split; [exact Hc|].
  split; [reflexivity|].
  rewrite (format_data_unconvertible_change sample_clock _ "AAPL" _ _ Hl eq_refl Hc
             eq_refl).
  vm_compute. reflexivity.
Defined.

(** ** The current-price handler *)

Lemma upper_char_idempotent c : upper_char (upper_char c) = upper_char c.
Proof. destruct c as [[] [] [] [] [] [] [] []]; reflexivity. Qed.

Lemma upper_ascii_idempotent s : upper_ascii (upper_ascii s) = upper_ascii s.
Proof.
  induction s as [|c s IH]; [reflexivity|].
  cbn [upper_ascii]. rewrite upper_char_idempotent, IH. reflexivity.
Qed.

(** C9, as stated, fails: when the provider fails, the error text carries
    the symbol as it was given, so the two spellings get different
    answers. *)
Lemma error_text_keeps_the_spelling :
  upper_ascii "aapl" = "AAPL"
  ∧ snd (_fetch_current_stock_price upper_ascii "aapl" (world_failing connection_error))
    = Ok "Error: Error fetching stock data for aapl: connection refused"
  ∧ snd (_fetch_current_stock_price upper_ascii "AAPL" (world_failing connection_error))
    = Ok "Error: Error fetching stock data for AAPL: connection refused"
  ∧ snd (_fetch_current_stock_price upper_ascii "aapl" (world_failing connection_error))
    ≠ snd (_fetch_current_stock_price upper_ascii (upper_ascii "aapl")
             (world_failing connection_error)).
Proof.
  split; [reflexivity|]. split; [reflexivity|]. split; [reflexivity|].
  vm_compute. discriminate.
Qed.

Section CurrentPrice.

Variable upper : string → string.

Lemma fetch_current_failure symbol w e :
  quote_reply w (upper symbol) = Raise e →
  _fetch_current_stock_price upper symbol w
  = ([Log ("Fetching current price for " +:+ symbol);
      QuoteCall (upper symbol);
      Log ("Error fetching stock data for " +:+ symbol +:+ ": " +:+ exn_text e);
      Log (format_exc w e)],
     Ok ("Error: " +:+ "Error fetching stock data for " +:+ symbol +:+ ": "
         +:+ exn_text e)).
Proof.
  intros Hq. unfold _fetch_current_stock_price. run_io.
  rewrite Hq. reflexivity.
Qed.

Lemma fetch_current_success symbol w d text :
  quote_reply w (upper symbol) = Ok (Some d) →
  format_data (clock w) d (upper symbol) None = Ok text →
  _fetch_current_stock_price upper symbol w
  = ([Log ("Fetching current price for " +:+ symbol); QuoteCall (upper symbol)],
     Ok text).
Proof.
  intros Hq Hf. unfold _fetch_current_stock_price. run_io.
  rewrite Hq. cbn -[format_data]. rewrite Hf. reflexivity.
Qed.

(** Whatever happens, the quote endpoint is called once, with the
    symbol in upper case. *)
Lemma fetch_current_calls symbol w :
  provider_calls (fst (_fetch_current_stock_price upper symbol w))
  = [QuoteCall (upper symbol)].
Proof.
  unfold _fetch_current_stock_price. run_io.
  destruct (quote_reply w (upper symbol)) as [[d|]|e]; cbn -[format_data];
    [|reflexivity..].
  destruct (format_data (clock w) d (upper symbol) None); reflexivity.
Qed.

(** C8. If the call to the provider raises, the handler returns a text
    that starts with [Error: ] and contains the symbol and the text of
    the exception; nothing is raised to the caller. *)
Theorem fetch_current_provider_failure symbol w e :
  quote_reply w (upper symbol) = Raise e →
  ∃ text,
    snd (_fetch_current_stock_price upper symbol w) = Ok text
    ∧ Text.starts_with text "Error: "
    ∧ Text.contains text symbol
    ∧ Text.contains text (exn_text e).
Proof.
  intros Hq. rewrite (fetch_current_failure symbol w e Hq). cbn [snd].
  eexists. split; [reflexivity|]. split; [|split].
  - eexists. reflexivity.
  - exists "Error: Error fetching stock data for ", (": " +:+ exn_text e).
    reflexivity.
  - exists ("Error: Error fetching stock data for " +:+ symbol +:+ ": "), EmptyString.
    rewrite !string_app_assoc.
    replace (exn_text e +:+ EmptyString) with (exn_text e); [reflexivity|].
    induction (exn_text e) as [|c s IH]; [reflexivity|].
    change (String c s = String c (s +:+ EmptyString)). rewrite <- IH. reflexivity.
Qed.

Hypothesis upper_idempotent : ∀ s, upper (upper s) = upper s.

(** C9, amended.  A symbol and its upper-case form lead to the same call
    of the quote endpoint, and to the same text whenever the provider
    returns a payload that the formatter renders. *)
Theorem fetch_current_case_insensitive symbol w :
  let r1 := _fetch_current_stock_price upper symbol w in
  let r2 := _fetch_current_stock_price upper (upper symbol) w in
  provider_calls (fst r1) = [QuoteCall (upper symbol)]
  ∧ provider_calls (fst r2) = [QuoteCall (upper symbol)]
  ∧ ∀ d text,
      quote_reply w (upper symbol) = Ok (Some d) →
      format_data (clock w) d (upper symbol) None = Ok text →
      snd r1 = Ok text ∧ snd r2 = Ok text.
Proof.
  intros r1 r2. unfold r1, r2. split; [apply fetch_current_calls|].
  split; [rewrite fetch_current_calls, upper_idempotent; reflexivity|].
  intros d text Hq Hf.
  rewrite (fetch_current_success symbol w d text Hq Hf).
  rewrite (fetch_current_success (upper symbol) w d text);
    rewrite ?upper_idempotent; auto.
Qed.

End CurrentPrice.

Lemma fetch_current_provider_failure_witness :
  quote_reply (world_failing connection_error) (upper_ascii "aapl")
  = Raise connection_error
  ∧ ∃ text,
      snd (_fetch_current_stock_price upper_ascii "aapl"
             (world_failing connection_error)) = Ok text
      ∧ Text.starts_with text "Error: "
      ∧ Text.contains text "aapl"
      ∧ Text.contains text (exn_text connection_error).
Proof.
  split; [reflexivity|].
  apply (fetch_current_provider_failure upper_ascii "aapl"
           (world_failing connection_error) connection_error).
  reflexivity.
Defined.

Lemma fetch_current_case_insensitive_witness :
  (∀ s, upper_ascii (upper_ascii s) = upper_ascii s)
  ∧ provider_calls
      (fst (_fetch_current_stock_price upper_ascii "aapl"
              (world_replying (Some quote_rising)))) = [QuoteCall "AAPL"]
  ∧ provider_calls
      (fst (_fetch_current_stock_price upper_ascii "AAPL"
              (world_replying (Some quote_rising)))) = [QuoteCall "AAPL"]
  ∧ snd (_fetch_current_stock_price upper_ascii "aapl"
           (world_replying (Some quote_rising)))
    = snd (_fetch_current_stock_price upper_ascii "AAPL"
             (world_replying (Some quote_rising))).
Proof.
  split; [exact upper_ascii_idempotent|].
  destruct (fetch_current_case_insensitive upper_ascii upper_ascii_idempotent "aapl"
              (world_replying (Some quote_rising))) as (H1 & H2 & H3).
  split; [exact H1|]. split; [exact H2|].
  destruct (H3 quote_rising _ eq_refl eq_refl) as [Ha Hb].
  exact (eq_trans Ha (eq_sym Hb)).
Defined.

(** * Further properties of the handlers *)

Section Answers.

Variable upper : string → string.

(** The answer of the current-price handler, case by case. *)
Lemma fetch_current_answer symbol w :
  snd (_fetch_current_stock_price upper symbol w)
  = Ok match quote_reply w (upper symbol) with
       | Ok (Some d) =>
           match format_data (clock w) d (upper symbol) None with
           | Ok text => text
           | Raise e => current_error_text symbol e
           end
       | Ok None =>
           current_error_text symbol
             (MkExn AttributeError "'NoneType' object has no attribute 'get'")
       | Raise e => current_error_text symbol e
       end.
Proof.
  unfold _fetch_current_stock_price. run_io.
  destruct (quote_reply w (upper symbol)) as [[d|]|e]; cbn -[format_data];
    [|reflexivity..].
  destruct (format_data (clock w) d (upper symbol) None); reflexivity.
Qed.

(** The answer of the historical handler, case by case. *)
Lemma fetch_historical_answer symbol date w :
  snd (_fetch_historical_stock_price upper symbol date w)
  = Ok match Datetime.strptime_Ymd date with
       | None => "Error: Invalid date format '" +:+ date +:+ "'. Use YYYY-MM-DD"
       | Some date_obj =>
           if (5 <=? Datetime.weekday date_obj)%Z then
             "Warning: " +:+ date
             +:+ " is a weekend. Stock markets are typically closed. Try a weekday date."
           else
             match eod_reply w (upper symbol) date with
             | Raise e => historical_error_text symbol date e
             | Ok payload =>
                 let d := default ∅ payload in
                 if negb (payload_truthy payload) then
                   "Error: No EOD data returned for " +:+ symbol +:+ " on " +:+ date
                 else if key_satisfies d "status" (λ v, py_eq_str v "error") then
                   "API Error: " +:+ message_or d "Unknown API error"
                 else if key_satisfies d "code" (λ v, py_eq_int v 400) then
                   "No data available: "
                   +:+ message_or d "No data available for this date"
                 else if missing_or_none d "close" then
                   "No closing price data available for " +:+ symbol +:+ " on "
                   +:+ date +:+ ". Markets may have been closed."
                 else
                   historical_text (upper symbol)
                     (dict_get d "datetime" (PyStr date))
                     (dict_get d "open" (PyStr "N/A"))
                     (dict_get d "close" (PyStr "N/A"))
                     (dict_get d "high" (PyStr "N/A"))
                     (dict_get d "low" (PyStr "N/A"))
                     (dict_get d "volume" (PyStr "N/A"))
                     (clock w)
             end
       end.
Proof.
  unfold _fetch_historical_stock_price. run_io.
  destruct (Datetime.strptime_Ymd date) as [date_obj|] eqn:Hp; [|reflexivity].
  destruct (5 <=? Datetime.weekday date_obj)%Z; [reflexivity|].
  destruct (eod_reply w (upper symbol) date) as [payload|e]; [|reflexivity].
  unfold classify_eod.
  destruct (payload_truthy payload) eqn:Ht; cbn [negb]; [|reflexivity].
  destruct payload as [d|]; [|discriminate Ht]. cbn [default from_option id].
  destruct (key_satisfies d "status" _);
    [rewrite dict_get_message; reflexivity|].
  destruct (key_satisfies d "code" _);
    [rewrite dict_get_message; reflexivity|].
  destruct (missing_or_none d "close"); [reflexivity|].
  unfold call_format_data.
  rewrite (format_data_historical _ _ _ _ (strptime_needs_text _ _ Hp)).
  reflexivity.
Qed.

End Answers.

Ltac no_such_prefix :=
  let after := fresh "after" in
  let H := fresh "H" in
  intros [after H]; cbn in H; discriminate H.

Section HandlerBehaviour.

Variable upper : string → string.

(** X1. For a date text of ASCII characters, the historical handler calls
    the end-of-day endpoint exactly when the date parses and falls on a
    week day; it then calls it once, with the symbol in upper case and the
    date text as given, whatever the endpoint answers.  It never calls the
    quote endpoint. *)
Theorem fetch_historical_provider_calls symbol date w :
  ascii_text date = true →
  provider_calls (fst (_fetch_historical_stock_price upper symbol date w))
  = match Datetime.strptime_Ymd date with
    | Some date_obj =>
        if (Datetime.weekday date_obj <? 5)%Z
        then [EodCall (upper symbol) date] else []
    | None => []
    end.
Proof.
  intros _.
  destruct (Datetime.strptime_Ymd date) as [date_obj|] eqn:Hp.
  - destruct (Datetime.weekday date_obj <? 5)%Z eqn:Hw.
    + apply Z.ltb_lt in Hw. apply (fetch_historical_calls upper _ _ _ _ Hp Hw).
    + apply Z.ltb_ge in Hw.
      rewrite (fetch_historical_weekend upper _ _ _ w Hp Hw). reflexivity.
  - rewrite (fetch_historical_rejected upper _ _ w Hp). reflexivity.
Qed.

(** X2. When the end-of-day endpoint raises, the historical handler returns
    the text [Error: Error fetching EOD data for <symbol> on <date>: <text
    of the exception>], with the symbol as given; nothing is raised. *)
Theorem fetch_historical_provider_failure symbol date date_obj w e :
  Datetime.strptime_Ymd date = Some date_obj →
  (Datetime.weekday date_obj < 5)%Z →
  eod_reply w (upper symbol) date = Raise e →
  snd (_fetch_historical_stock_price upper symbol date w)
  = Ok ("Error: Error fetching EOD data for " +:+ symbol +:+ " on " +:+ date
        +:+ ": " +:+ exn_text e).
Proof.
  intros Hp Hw He. rewrite fetch_historical_answer, Hp, He.
  apply Z.leb_gt in Hw. rewrite Hw. reflexivity.
Qed.

(** X3. The historical handler never raises: for every symbol, date and
    behaviour of the provider it returns a text, and the text starts with
    one of six fixed prefixes. *)
Theorem fetch_historical_answer_prefix symbol date w :
  ∃ text,
    snd (_fetch_historical_stock_price upper symbol date w) = Ok text
    ∧ Exists (Text.starts_with text) historical_prefixes.
Proof.
  eexists. split; [apply fetch_historical_answer|].
  unfold historical_prefixes.
  destruct (Datetime.strptime_Ymd date) as [date_obj|];
    [|apply Exists_cons_hd; eexists; reflexivity].
  destruct (5 <=? Datetime.weekday date_obj)%Z;
    [apply Exists_cons_tl, Exists_cons_hd; eexists; reflexivity|].
  destruct (eod_reply w (upper symbol) date) as [payload|e];
    [|apply Exists_cons_hd; eexists; reflexivity].
  cbv zeta.
  destruct (negb (payload_truthy payload));
    [apply Exists_cons_hd; eexists; reflexivity|].
  destruct (key_satisfies _ "status" _);
    [do 2 apply Exists_cons_tl; apply Exists_cons_hd; eexists; reflexivity|].
  destruct (key_satisfies _ "code" _);
    [do 3 apply Exists_cons_tl; apply Exists_cons_hd; eexists; reflexivity|].
  destruct (missing_or_none _ "close");
    [do 4 apply Exists_cons_tl; apply Exists_cons_hd; eexists; reflexivity|].
  do 5 apply Exists_cons_tl. apply Exists_cons_hd. eexists. reflexivity.
Qed.

(** X4. For a date text of ASCII characters, the prefix of the answer
    tells the outcome of the date check: the answer starts with [Warning: ]
    exactly when the date parses and falls on a Saturday or a Sunday, and
    with [Error: Invalid date format] exactly when the date does not
    parse. *)
Theorem fetch_historical_prefix_decides symbol date w :
  ascii_text date = true →
  ∃ text,
    snd (_fetch_historical_stock_price upper symbol date w) = Ok text
    ∧ (Text.starts_with text "Warning: "
       ↔ ∃ date_obj, Datetime.strptime_Ymd date = Some date_obj
                     ∧ (5 <= Datetime.weekday date_obj)%Z)
    ∧ (Text.starts_with text "Error: Invalid date format"
       ↔ Datetime.strptime_Ymd date = None).
Proof.
  intros _.
  eexists. split; [apply fetch_historical_answer|].
  destruct (Datetime.strptime_Ymd date) as [date_obj|].
  - assert (Hsome : ∀ t : string,
              ¬ Text.starts_with t "Error: Invalid date format" →
              Text.starts_with t "Error: Invalid date format"
              ↔ Some date_obj = None :> option Datetime.date)
      by (intros t Hn; split; [intros H; destruct (Hn H) | discriminate]).
    destruct (5 <=? Datetime.weekday date_obj)%Z eqn:Hw.
    + apply Z.leb_le in Hw. split.
      * split; [eauto | intros _; eexists; reflexivity].
      * apply Hsome. no_such_prefix.
    + apply Z.leb_gt in Hw.
      assert (Hweek : ∀ t : string,
                ¬ Text.starts_with t "Warning: " →
                Text.starts_with t "Warning: "
                ↔ ∃ d, Some date_obj = Some d ∧ (5 <= Datetime.weekday d)%Z).
      { intros t Hn. split; [intros H; destruct (Hn H)|].
        intros (d & [= <-] & H). lia. }
      destruct (eod_reply w (upper symbol) date) as [payload|e];
        [|split; [apply Hweek | apply Hsome]; no_such_prefix].
      cbv zeta.
      destruct (negb (payload_truthy payload));
        [split; [apply Hweek | apply Hsome]; no_such_prefix|].
      destruct (key_satisfies _ "status" _);
        [split; [apply Hweek | apply Hsome]; no_such_prefix|].
      destruct (key_satisfies _ "code" _);
        [split; [apply Hweek | apply Hsome]; no_such_prefix|].
      destruct (missing_or_none _ "close");
        split; (apply Hweek || apply Hsome); no_such_prefix.
  - split.
    + split; [no_such_prefix | intros (d & [=] & _)].
    + split; [reflexivity | intros _; eexists; reflexivity].
Qed.

End HandlerBehaviour.

Lemma fetch_historical_provider_failure_witness :
  Datetime.strptime_Ymd "2024-01-15" = Some (Datetime.MkDate 2024 1 15)
  ∧ (Datetime.weekday (Datetime.MkDate 2024 1 15) < 5)%Z
  ∧ eod_reply (world_failing connection_error) (upper_ascii "aapl") "2024-01-15"
    = Raise connection_error
  ∧ snd (_fetch_historical_stock_price upper_ascii "aapl" "2024-01-15"
           (world_failing connection_error))
    = Ok "Error: Error fetching EOD data for aapl on 2024-01-15: connection refused".
Proof.
  split; [reflexivity|]. split; [reflexivity|]. split; [reflexivity|].
  apply (fetch_historical_provider_failure upper_ascii "aapl" "2024-01-15"
           (Datetime.MkDate 2024 1 15) (world_failing connection_error)
           connection_error); reflexivity.
Defined.

Section CurrentBehaviour.

Variable upper : string → string.

(** X5. The current-price handler never raises.  Its answer is the
    formatter's text, titled with the symbol in upper case, when the quote
    endpoint returns a dictionary that the formatter renders; in every
    other case (the endpoint raises, it returns [None], the formatter
    raises) it is an error text that names the symbol as given. *)
Theorem fetch_current_answer_kinds symbol w :
  ∃ text,
    snd (_fetch_current_stock_price upper symbol w) = Ok text
    ∧ ((∃ d, quote_reply w (upper symbol) = Ok (Some d)
             ∧ format_data (clock w) d (upper symbol) None = Ok text
             ∧ Text.starts_with text ("Stock Price Data: " +:+ upper symbol +:+ nl))
       ∨ ((∀ d, quote_reply w (upper symbol) = Ok (Some d) →
                is_Ok (format_data (clock w) d (upper symbol) None) = false)
          ∧ Text.starts_with text
              ("Error: Error fetching stock data for " +:+ symbol +:+ ": "))).
Proof.
  eexists. split; [apply fetch_current_answer|].
  assert (Herr : ∀ e, Text.starts_with (current_error_text symbol e)
                        ("Error: Error fetching stock data for " +:+ symbol +:+ ": ")).
  { intros e. exists (exn_text e). unfold current_error_text.
    rewrite !string_app_assoc. reflexivity. }
  destruct (quote_reply w (upper symbol)) as [[d|]|e].
  - destruct (format_data (clock w) d (upper symbol) None) as [text|e] eqn:Hf.
    + left. exists d. split; [reflexivity|]. split; [exact Hf|].
      unfold format_data in Hf. cbn [date_given] in Hf.
      destruct (change_parts _ _) as [[[dir cs] ps]|]; [|discriminate Hf].
      injection Hf as <-. eexists. unfold current_text.
      rewrite !string_app_assoc. reflexivity.
    + right. split; [|apply Herr]. intros d' [= <-]. rewrite Hf. reflexivity.
  - right. split; [discriminate | apply Herr].
  - right. split; [discriminate | apply Herr].
Qed.

(** X6. Whatever the symbol, the empty one included, the current-price
    handler logs one line and then calls the quote endpoint, once, with the
    symbol in upper case; no other call to the provider follows. *)
Theorem fetch_current_single_call symbol w :
  ∃ rest,
    fst (_fetch_current_stock_price upper symbol w)
    = Log ("Fetching current price for " +:+ symbol)
        :: QuoteCall (upper symbol) :: rest
    ∧ provider_calls rest = [].
Proof.
  unfold _fetch_current_stock_price. run_io.
  destruct (quote_reply w (upper symbol)) as [[d|]|e]; cbn -[format_data];
    [|eexists; split; reflexivity..].
  destruct (format_data (clock w) d (upper symbol) None);
    eexists; split; reflexivity.
Qed.

(** X7. A date of the strict form YYYY-MM-DD that names a calendar day is
    never refused: on a week day the end-of-day endpoint is called with
    that very text and the symbol in upper case, and at a weekend the
    warning is returned without a call. *)
Theorem strict_date_is_served symbol date date_obj w :
  strict_YYYY_MM_DD date = Some date_obj →
  let r := _fetch_historical_stock_price upper symbol date w in
  if (Datetime.weekday date_obj <? 5)%Z
  then provider_calls (fst r) = [EodCall (upper symbol) date]
  else snd r = Ok ("Warning: " +:+ date
                   +:+ " is a weekend. Stock markets are typically closed. Try a weekday date.")
       ∧ provider_calls (fst r) = [].
Proof.
  intros Hs%strict_accepted_by_strptime r. unfold r.
  destruct (Datetime.weekday date_obj <? 5)%Z eqn:Hw.
  - apply Z.ltb_lt in Hw. apply (fetch_historical_calls upper _ _ _ _ Hs Hw).
  - apply Z.ltb_ge in Hw.
    rewrite (fetch_historical_weekend upper _ _ _ w Hs Hw). split; reflexivity.
Qed.

(** X8. What is written to the log does not reach the caller: with another
    traceback text both handlers return the same answer and make the same
    calls to the provider. *)
Theorem answers_ignore_traceback (f : Exn → string) symbol date w :
  snd (_fetch_current_stock_price upper symbol (with_traceback f w))
  = snd (_fetch_current_stock_price upper symbol w)
  ∧ provider_calls (fst (_fetch_current_stock_price upper symbol (with_traceback f w)))
    = provider_calls (fst (_fetch_current_stock_price upper symbol w))
  ∧ snd (_fetch_historical_stock_price upper symbol date (with_traceback f w))
    = snd (_fetch_historical_stock_price upper symbol date w)
  ∧ provider_calls
      (fst (_fetch_historical_stock_price upper symbol date (with_traceback f w)))
    = provider_calls (fst (_fetch_historical_stock_price upper symbol date w)).
Proof.
  split; [rewrite !fetch_current_answer; reflexivity|].
  split; [rewrite !fetch_current_calls; reflexivity|].
  split; [rewrite !fetch_historical_answer; reflexivity|].
  destruct (Datetime.strptime_Ymd date) as [date_obj|] eqn:Hp.
  - destruct (Z.lt_ge_cases (Datetime.weekday date_obj) 5) as [Hw | Hw].
    + rewrite !(fetch_historical_calls upper _ _ _ _ Hp Hw). reflexivity.
    + rewrite !(fetch_historical_weekend upper _ _ _ _ Hp Hw). reflexivity.
  - rewrite !(fetch_historical_rejected upper _ _ _ Hp). reflexivity.
Qed.

(** X9. The current-price handler does not test for an empty payload: an
    empty dictionary from the quote endpoint is rendered as a quote whose
    values are the placeholder, with a change of [+0.00 (+0.00%)]. *)
Theorem fetch_current_empty_payload symbol w :
  quote_reply w (upper symbol) = Ok (Some ∅) →
  snd (_fetch_current_stock_price upper symbol w)
  = Ok (current_text (upper symbol) (PyStr "N/A") "+0.00" "+0.00%" up_glyph
          (PyStr "N/A") (PyStr "N/A") (PyStr "N/A") (PyStr "N/A") (PyStr "N/A")
          (clock w)).
Proof.
  intros Hq. rewrite fetch_current_answer, Hq.
  unfold format_data, dict_get. cbn [date_given]. rewrite !lookup_empty.
  cbn [default from_option id].
  replace (change_parts (PyInt 0) (PyInt 0)) with
    (Ok (A := string * string * string) (up_glyph, "+0.00", "+0.00%"))
    by (vm_compute; reflexivity).
  reflexivity.
Qed.

End CurrentBehaviour.

Lemma strict_date_is_served_witness :
  strict_YYYY_MM_DD "2024-01-15" = Some (Datetime.MkDate 2024 1 15)
  ∧ provider_calls
      (fst (_fetch_historical_stock_price upper_ascii "aapl" "2024-01-15"
              (world_failing connection_error)))
    = [EodCall "AAPL" "2024-01-15"].
Proof.
  split; [reflexivity|].
  apply (strict_date_is_served upper_ascii "aapl" "2024-01-15"
           (Datetime.MkDate 2024 1 15) (world_failing connection_error)).
  reflexivity.
Defined.

Lemma fetch_current_empty_payload_witness :
  quote_reply (world_replying (Some ∅)) (upper_ascii "aapl") = Ok (Some ∅)
  ∧ snd (_fetch_current_stock_price upper_ascii "aapl" (world_replying (Some ∅)))
    = Ok (current_text "AAPL" (PyStr "N/A") "+0.00" "+0.00%" up_glyph
            (PyStr "N/A") (PyStr "N/A") (PyStr "N/A") (PyStr "N/A") (PyStr "N/A")
            sample_clock).
Proof.
  split; [reflexivity|].
  apply (fetch_current_empty_payload upper_ascii "aapl" (world_replying (Some ∅))).
  reflexivity.
Defined.

(** ** Resources and tools *)

Lemma log_then {A} (message : string) (m : IO A) w :
  (log message ;; m) w = (Log message :: fst (m w), snd (m w)).
Proof.
  unfold mbind, io_bind, log. destruct (m w) as [t r]. reflexivity.
Qed.

Lemma provider_calls_log message trace :
  provider_calls (Log message :: trace) = provider_calls trace.
Proof. reflexivity. Qed.

Section InterfaceBehaviour.

Variable upper : string → string.

(** X10. The resource [stock://{symbol}] and the tool
    [get_current_stock_price] give the same answer, that of the
    current-price handler, and make the same single call to the quote
    endpoint; they differ in their first log line only. *)
Theorem current_resource_and_tool_agree symbol w :
  snd (get_stock_price upper symbol w)
  = snd (_fetch_current_stock_price upper symbol w)
  ∧ snd (get_current_stock_price upper symbol w)
    = snd (_fetch_current_stock_price upper symbol w)
  ∧ provider_calls (fst (get_stock_price upper symbol w))
    = [QuoteCall (upper symbol)]
  ∧ provider_calls (fst (get_current_stock_price upper symbol w))
    = [QuoteCall (upper symbol)]
  ∧ tail (fst (get_stock_price upper symbol w))
    = tail (fst (get_current_stock_price upper symbol w)).
Proof.
  unfold get_stock_price, get_current_stock_price. rewrite !log_then.
  cbn [fst snd tail]. rewrite !provider_calls_log, fetch_current_calls.
  repeat split; reflexivity.
Qed.

(** X11. The resource [stock://{symbol}/closingdate/{date}] and the tool
    [get_historical_stock_price] give the same answer, that of the
    historical handler, and make the same calls to the provider; they
    differ in their first log line only. *)
Theorem historical_resource_and_tool_agree symbol date w :
  snd (get_stock_closing_price upper symbol date w)
  = snd (_fetch_historical_stock_price upper symbol date w)
  ∧ snd (get_historical_stock_price upper symbol date w)
    = snd (_fetch_historical_stock_price upper symbol date w)
  ∧ provider_calls (fst (get_stock_closing_price upper symbol date w))
    = provider_calls (fst (_fetch_historical_stock_price upper symbol date w))
  ∧ provider_calls (fst (get_historical_stock_price upper symbol date w))
    = provider_calls (fst (_fetch_historical_stock_price upper symbol date w))
  ∧ tail (fst (get_stock_closing_price upper symbol date w))
    = tail (fst (get_historical_stock_price upper symbol date w)).
Proof.
  unfold get_stock_closing_price, get_historical_stock_price. rewrite !log_then.
  repeat split; reflexivity.
Qed.

Hypothesis upper_idempotent : ∀ s, upper (upper s) = upper s.

(** X12. The two prompts take the symbol in upper case only: a symbol and
    its upper-case form give the same prompt.  The historical prompt quotes
    the date as given, unchecked, in the address of the resource. *)
Theorem prompts_fold_case symbol date :
  stock_current_price_prompt upper (upper symbol)
  = stock_current_price_prompt upper symbol
  ∧ stock_historical_price_prompt upper (upper symbol) date
    = stock_historical_price_prompt upper symbol date
  ∧ Text.contains (stock_historical_price_prompt upper symbol date)
      ("Use the resource: stock://" +:+ upper symbol +:+ "/closingdate/" +:+ date
       +:+ nl).
Proof.
  unfold stock_current_price_prompt, stock_historical_price_prompt.
  rewrite !upper_idempotent. split; [reflexivity|]. split; [reflexivity|].
  exists (nl +:+ "To get historical End-of-Day (EOD) stock price information for "
          +:+ upper symbol +:+ " on " +:+ date +:+ ":" +:+ nl +:+ nl).
  eexists. rewrite !string_app_assoc. reflexivity.
Qed.

End InterfaceBehaviour.

Lemma prompts_fold_case_witness :
  (∀ s, upper_ascii (upper_ascii s) = upper_ascii s)
  ∧ stock_current_price_prompt upper_ascii (upper_ascii "aapl")
    = stock_current_price_prompt upper_ascii "aapl"
  ∧ stock_historical_price_prompt upper_ascii (upper_ascii "aapl") "tomorrow"
    = stock_historical_price_prompt upper_ascii "aapl" "tomorrow"
  ∧ Text.contains (stock_historical_price_prompt upper_ascii "aapl" "tomorrow")
      ("Use the resource: stock://" +:+ upper_ascii "aapl" +:+ "/closingdate/"
       +:+ "tomorrow" +:+ nl).
Proof.
  split; [exact upper_ascii_idempotent|].
  exact (prompts_fold_case upper_ascii upper_ascii_idempotent "aapl" "tomorrow").
Defined.

(** ** Further properties of the formatter *)

Lemma dict_get_insert_ne (data : gmap string PyVal) key v k dflt :
  key ≠ k → dict_get (<[key := v]> data) k dflt = dict_get data k dflt.
Proof. intros Hne. unfold dict_get. rewrite lookup_insert_ne by exact Hne. reflexivity. Qed.

(** When the [try] statement lets an exception out, [float()] was given an
    integer, and the exception is its [OverflowError]. *)
Lemma change_parts_raise change percent_change e :
  change_parts change percent_change = Raise e →
  exn_class e = OverflowError
  ∧ ((∃ n, change = PyInt n ∧ py_float change = Raise e)
     ∨ (∃ n, percent_change = PyInt n ∧ py_float percent_change = Raise e)).
Proof.
  unfold change_parts. destruct (_ && _); [|discriminate].
  assert (Hint : ∀ v, py_float v = Raise e → caught_by_formatter e = false →
                      exn_class e = OverflowError ∧ ∃ n, v = PyInt n).
  { intros v Hv Hn. pose proof (py_float_Raise_class _ _ Hv) as Hcl.
    unfold caught_by_formatter in Hn. rewrite Hcl in Hn.
    destruct v; try discriminate Hn. split; [exact Hcl | eauto]. }
  destruct (py_float change) as [cv|e1] eqn:E1.
  - destruct (py_float percent_change) as [pv|e2] eqn:E2; [discriminate|].
    destruct (caught_by_formatter e2) eqn:C; [discriminate|].
    intros [= ->]. destruct (Hint _ E2 C) as [Hcl [n Hn]].
    split; [exact Hcl|]. right. exists n. split; [exact Hn | reflexivity].
  - destruct (caught_by_formatter e1) eqn:C; [discriminate|].
    intros [= ->]. destruct (Hint _ E1 C) as [Hcl [n Hn]].
    split; [exact Hcl|]. left. exists n. split; [exact Hn | reflexivity].
Qed.

Lemma format_data_raise_int ts data symbol date e :
  format_data ts data symbol date = Raise e →
  date_given date = false
  ∧ exn_class e = OverflowError
  ∧ ((∃ n, data !! "change" = Some (PyInt n))
     ∨ (∃ n, data !! "percent_change" = Some (PyInt n))).
Proof.
  unfold format_data. destruct (date_given date); [discriminate|].
  destruct (change_parts _ _) as [[[dir cs] ps]|e'] eqn:E; [discriminate|].
  intros [= ->]. split; [reflexivity|].
  destruct (change_parts_raise _ _ _ E) as [Hcl Hwho]. split; [exact Hcl|].
  unfold dict_get in Hwho.
  destruct Hwho as [(n & Hn & Hf) | (n & Hn & Hf)]; [left | right];
    match type of Hn with
    | default _ ?o = _ => destruct o as [v|] eqn:Hl
    end; cbn in Hn, Hf; subst; first [discriminate Hf | eauto].
Qed.

(** X13. [format_data] reads eleven keys and no other: a payload with one
    more key, whatever its value, is rendered to the same text. *)
Theorem format_data_ignores_other_keys ts data symbol date key v :
  ¬ In key formatter_keys →
  format_data ts (<[key := v]> data) symbol date = format_data ts data symbol date.
Proof.
  intros Hk. unfold format_data.
  rewrite !dict_get_insert_ne
    by (intros ->; apply Hk; unfold formatter_keys; cbn; tauto).
  reflexivity.
Qed.

(** X14. On a payload whose integers are short enough for [str()], the
    only way [format_data] fails: in current-price mode, with the
    [OverflowError] of [float()], on a payload whose [change] or
    [percent_change] is an integer.  In historical mode it does not
    fail. *)
Theorem format_data_failure_cause ts data symbol date e :
  short_ints data →
  format_data ts data symbol date = Raise e →
  date_given date = false
  ∧ exn_class e = OverflowError
  ∧ ((∃ n, data !! "change" = Some (PyInt n))
     ∨ (∃ n, data !! "percent_change" = Some (PyInt n))).
Proof. intros _. apply format_data_raise_int. Qed.

(** X15. On a payload whose integers are short enough for [str()] and
    whose [change] and [percent_change] are not integers (absent, texts,
    floats, nulls or anything else) [format_data] returns a text, in
    either mode. *)
Theorem format_data_total_without_int_fields ts data symbol date :
  short_ints data →
  (∀ n, data !! "change" ≠ Some (PyInt n)) →
  (∀ n, data !! "percent_change" ≠ Some (PyInt n)) →
  ∃ text, format_data ts data symbol date = Ok text.
Proof.
  intros _ Hc Hp. destruct (format_data ts data symbol date) as [text|e] eqn:E;
    [eauto|].
  destruct (format_data_raise_int _ _ _ _ _ E) as (_ & _ & [[n Hn] | [n Hn]]).
  - destruct (Hc n Hn).
  - destruct (Hp n Hn).
Qed.

(** X16. The mode of [format_data] is chosen by the truth value of the
    date: the empty text selects current-price mode, as no date does, and
    any other text, a date or not, selects historical mode, where the
    [Date] line shows the payload's [datetime] or else that text. *)
Theorem format_data_mode ts data symbol date :
  date ≠ EmptyString →
  format_data ts data symbol (Some EmptyString) = format_data ts data symbol None
  ∧ ∃ text,
      format_data ts data symbol (Some date) = Ok text
      ∧ Text.starts_with text ("Stock Historical Data (EOD): " +:+ symbol +:+ nl)
      ∧ Text.contains text
          ("Date: "
           +:+ match data !! "datetime" with
               | Some actual_date => py_str actual_date
               | None => date
               end
           +:+ nl +:+ "Opening Price: $").
Proof.
  intros Hd. split; [reflexivity|].
  assert (Hg : date_given (Some date) = true)
    by (destruct date; [destruct (Hd eq_refl) | reflexivity]).
  eexists. split; [apply (format_data_historical _ _ _ _ Hg)|].
  unfold historical_text, dict_get. split.
  - eexists. rewrite !string_app_assoc. reflexivity.
  - exists ("Stock Historical Data (EOD): " +:+ symbol +:+ nl
            +:+ replicate_char 40 "=" +:+ nl).
    eexists. destruct (data !! "datetime"); cbn [default from_option id py_str];
      rewrite !string_app_assoc; reflexivity.
Qed.

Lemma format_data_ignores_other_keys_witness :
  ¬ In "symbol" formatter_keys
  ∧ format_data sample_clock (<["symbol" := PyStr "AAPL"]> quote_rising) "AAPL" None
    = format_data sample_clock quote_rising "AAPL" None.
Proof.
  assert (H : ¬ In "symbol" formatter_keys).
  { unfold formatter_keys. cbn. intros H.
    repeat (destruct H as [H | H]; [discriminate H|]). exact H. }
  split; [exact H|].
  exact (format_data_ignores_other_keys sample_clock quote_rising "AAPL" None
           "symbol" (PyStr "AAPL") H).
Defined.

Lemma format_data_failure_cause_witness :
  short_ints {["percent_change" := PyInt huge_int]}
  ∧ format_data sample_clock {["percent_change" := PyInt huge_int]} "AAPL" None
    = Raise (MkExn OverflowError "int too large to convert to float")
  ∧ date_given None = false
  ∧ exn_class (MkExn OverflowError "int too large to convert to float") = OverflowError
  ∧ ((∃ n, ({["percent_change" := PyInt huge_int]} : gmap string PyVal) !! "change"
           = Some (PyInt n))
     ∨ (∃ n, ({["percent_change" := PyInt huge_int]} : gmap string PyVal)
             !! "percent_change" = Some (PyInt n))).
Proof.
  assert (H : format_data sample_clock {["percent_change" := PyInt huge_int]} "AAPL" None
              = Raise (MkExn OverflowError "int too large to convert to float"))
    by (vm_compute; reflexivity).
  assert (Hs : short_ints {["percent_change" := PyInt huge_int]})
    by (apply map_Forall_singleton; vm_compute; reflexivity).
  split; [exact Hs|]. split; [exact H|].
  exact (format_data_failure_cause sample_clock _ "AAPL" None _ Hs H).
Defined.

Lemma format_data_total_without_int_fields_witness :
  short_ints quote_falling
  ∧ (∀ n, quote_falling !! "change" ≠ Some (PyInt n))
  ∧ (∀ n, quote_falling !! "percent_change" ≠ Some (PyInt n))
  ∧ ∃ text, format_data sample_clock quote_falling "AAPL" None = Ok text.
Proof.
  assert (Hc : ∀ n, quote_falling !! "change" ≠ Some (PyInt n))
    by (intros n H; vm_compute in H; discriminate H).
  assert (Hp : ∀ n, quote_falling !! "percent_change" ≠ Some (PyInt n))
    by (intros n H; vm_compute in H; discriminate H).
  assert (Hs : short_ints quote_falling)
    by (repeat (apply map_Forall_insert_2; [reflexivity|]); apply map_Forall_empty).
  split; [exact Hs|]. split; [exact Hc|]. split; [exact Hp|].
  exact (format_data_total_without_int_fields sample_clock quote_falling "AAPL" None
           Hs Hc Hp).
Defined.

Lemma format_data_mode_witness :
  "not a date" ≠ EmptyString
  ∧ format_data sample_clock eod_code_400 "AAPL" (Some EmptyString)
    = format_data sample_clock eod_code_400 "AAPL" None
  ∧ ∃ text,
      format_data sample_clock eod_code_400 "AAPL" (Some "not a date") = Ok text
      ∧ Text.starts_with text ("Stock Historical Data (EOD): " +:+ "AAPL" +:+ nl)
      ∧ Text.contains text
          ("Date: "
           +:+ match eod_code_400 !! "datetime" with
               | Some actual_date => py_str actual_date
               | None => "not a date"
               end
           +:+ nl +:+ "Opening Price: $").
Proof.
  assert (H : "not a date" ≠ EmptyString) by discriminate.
  split; [exact H|].
  exact (format_data_mode sample_clock eod_code_400 "AAPL" "not a date" H).
Defined.

(** ** The symbol and the closing price in the historical answer *)

Section HistoricalAnswer.

Variable upper : string → string.

(** X17. When the historical handler returns the formatted block, the
    end-of-day endpoint has returned a dictionary whose [close] is present
    and not null, and the block shows that value on its closing-price
    line: no block is ever rendered without a closing price. *)
Theorem historical_block_has_close symbol date w text :
  snd (_fetch_historical_stock_price upper symbol date w) = Ok text →
  Text.starts_with text "Stock Historical Data (EOD): " →
  ∃ d v,
    eod_reply w (upper symbol) date = Ok (Some d)
    ∧ d !! "close" = Some v ∧ v ≠ PyNone
    ∧ Text.contains text ("Closing Price: $" +:+ py_str v +:+ nl).
Proof.
  rewrite fetch_historical_answer. intros [= <-].
  destruct (Datetime.strptime_Ymd date) as [date_obj|]; [|no_such_prefix].
  destruct (5 <=? Datetime.weekday date_obj)%Z; [no_such_prefix|].
  destruct (eod_reply w (upper symbol) date) as [payload|e]; [|no_such_prefix].
  cbv zeta.
  destruct (payload_truthy payload) eqn:Ht; cbn [negb]; [|no_such_prefix].
  destruct payload as [d|]; [|discriminate Ht]. cbn [default from_option id].
  destruct (key_satisfies d "status" _); [no_such_prefix|].
  destruct (key_satisfies d "code" _); [no_such_prefix|].
  destruct (missing_or_none d "close") eqn:Hm; [no_such_prefix|].
  intros _. unfold missing_or_none in Hm.
  destruct (d !! "close") as [v|] eqn:Hl; [|discriminate Hm].
  exists d, v. split; [reflexivity|]. split; [exact Hl|].
  split; [intros ->; discriminate Hm|].
  unfold historical_text, dict_get. rewrite Hl. cbn [default from_option id].
  exists ("Stock Historical Data (EOD): " +:+ upper symbol +:+ nl
          +:+ replicate_char 40 "=" +:+ nl
          +:+ "Date: "
          +:+ py_str (default (PyStr date) (d !! "datetime")) +:+ nl
          +:+ "Opening Price: $"
          +:+ py_str (default (PyStr "N/A") (d !! "open")) +:+ nl).
  eexists. rewrite !string_app_assoc. reflexivity.
Qed.

Hypothesis upper_idempotent : ∀ s, upper (upper s) = upper s.

(** X18. A symbol and its upper-case form lead the historical handler to
    the same calls of the provider, and to the same answer whenever the
    endpoint returns a non-empty payload whose [close] is present and not
    null (the answers that do not quote the symbol as given). *)
Theorem fetch_historical_case_insensitive symbol date date_obj w d :
  Datetime.strptime_Ymd date = Some date_obj →
  (Datetime.weekday date_obj < 5)%Z →
  eod_reply w (upper symbol) date = Ok (Some d) →
  d ≠ ∅ →
  missing_or_none d "close" = false →
  provider_calls (fst (_fetch_historical_stock_price upper (upper symbol) date w))
  = provider_calls (fst (_fetch_historical_stock_price upper symbol date w))
  ∧ snd (_fetch_historical_stock_price upper (upper symbol) date w)
    = snd (_fetch_historical_stock_price upper symbol date w).
Proof.
  intros Hp Hw Hr Hne Hm. split.
  - rewrite !(fetch_historical_calls upper _ _ _ _ Hp Hw), upper_idempotent.
    reflexivity.
  - rewrite !fetch_historical_answer, upper_idempotent, Hp, Hr.
    apply Z.leb_gt in Hw. rewrite Hw. cbv zeta.
    assert (Ht : payload_truthy (Some d) = true)
      by (cbn; apply bool_decide_eq_true_2, Hne).
    rewrite Ht. cbn [negb default from_option id]. rewrite Hm. reflexivity.
Qed.

End HistoricalAnswer.

(** X19. In current-price mode the price shown is the payload's [close]
    whenever that key is present, a null included; [price] is used only
    when [close] is absent, and the placeholder when both are. *)
Theorem format_data_price_line ts data symbol text :
  format_data ts data symbol None = Ok text →
  Text.contains text
    ("Current Price: $"
     +:+ py_str match data !! "close", data !! "price" with
                | Some close, _ => close
                | None, Some price => price
                | None, None => PyStr "N/A"
                end
     +:+ nl +:+ "Change: ").
Proof.
  unfold format_data. cbn [date_given].
  destruct (change_parts _ _) as [[[dir cs] ps]|]; [|discriminate].
  intros [= <-]. unfold current_text, change_line, dict_get.
  exists ("Stock Price Data: " +:+ symbol +:+ nl +:+ replicate_char 40 "=" +:+ nl).
  eexists.
  destruct (data !! "close"), (data !! "price"); cbn [default from_option id];
    rewrite !string_app_assoc; reflexivity.
Qed.

Lemma historical_block_has_close_witness :
  snd (_fetch_historical_stock_price upper_ascii "aapl" "2024-01-15"
         (world_replying (Some {["close" := PyStr "185.92"]})))
  = Ok (historical_text "AAPL" (PyStr "2024-01-15") (PyStr "N/A") (PyStr "185.92")
          (PyStr "N/A") (PyStr "N/A") (PyStr "N/A") sample_clock)
  ∧ Text.starts_with
      (historical_text "AAPL" (PyStr "2024-01-15") (PyStr "N/A") (PyStr "185.92")
         (PyStr "N/A") (PyStr "N/A") (PyStr "N/A") sample_clock)
      "Stock Historical Data (EOD): "
  ∧ ∃ d v,
      eod_reply (world_replying (Some {["close" := PyStr "185.92"]}))
        (upper_ascii "aapl") "2024-01-15" = Ok (Some d)
      ∧ d !! "close" = Some v ∧ v ≠ PyNone
      ∧ Text.contains
          (historical_text "AAPL" (PyStr "2024-01-15") (PyStr "N/A") (PyStr "185.92")
             (PyStr "N/A") (PyStr "N/A") (PyStr "N/A") sample_clock)
          ("Closing Price: $" +:+ py_str v +:+ nl).
Proof.
  assert (H1 : snd (_fetch_historical_stock_price upper_ascii "aapl" "2024-01-15"
                      (world_replying (Some {["close" := PyStr "185.92"]})))
               = Ok (historical_text "AAPL" (PyStr "2024-01-15") (PyStr "N/A")
                       (PyStr "185.92") (PyStr "N/A") (PyStr "N/A") (PyStr "N/A")
                       sample_clock)) by reflexivity.
  assert (H2 : Text.starts_with
                 (historical_text "AAPL" (PyStr "2024-01-15") (PyStr "N/A")
                    (PyStr "185.92") (PyStr "N/A") (PyStr "N/A") (PyStr "N/A")
                    sample_clock)
                 "Stock Historical Data (EOD): ")
    by (eexists; reflexivity).
  split; [exact H1|]. split; [exact H2|].
  exact (historical_block_has_close upper_ascii "aapl" "2024-01-15" _ _ H1 H2).
Defined.

Lemma fetch_historical_case_insensitive_witness :
  (∀ s, upper_ascii (upper_ascii s) = upper_ascii s)
  ∧ Datetime.strptime_Ymd "2024-01-15" = Some (Datetime.MkDate 2024 1 15)
  ∧ (Datetime.weekday (Datetime.MkDate 2024 1 15) < 5)%Z
  ∧ eod_reply (world_replying (Some {["close" := PyStr "185.92"]}))
      (upper_ascii "aapl") "2024-01-15" = Ok (Some {["close" := PyStr "185.92"]})
  ∧ ({["close" := PyStr "185.92"]} : gmap string PyVal) ≠ ∅
  ∧ missing_or_none {["close" := PyStr "185.92"]} "close" = false
  ∧ snd (_fetch_historical_stock_price upper_ascii (upper_ascii "aapl") "2024-01-15"
           (world_replying (Some {["close" := PyStr "185.92"]})))
    = snd (_fetch_historical_stock_price upper_ascii "aapl" "2024-01-15"
             (world_replying (Some {["close" := PyStr "185.92"]}))).
Proof.
  assert (Hne : ({["close" := PyStr "185.92"]} : gmap string PyVal) ≠ ∅)
    by (intros H; apply (f_equal (lookup "close")) in H; discriminate H).
  split; [exact upper_ascii_idempotent|]. split; [reflexivity|].
  split; [reflexivity|]. split; [reflexivity|]. split; [exact Hne|].
  split; [reflexivity|].
  exact (proj2 (fetch_historical_case_insensitive upper_ascii upper_ascii_idempotent
                  "aapl" "2024-01-15" (Datetime.MkDate 2024 1 15)
                  (world_replying (Some {["close" := PyStr "185.92"]}))
                  {["close" := PyStr "185.92"]} eq_refl eq_refl eq_refl Hne eq_refl)).
Defined.

Lemma format_data_price_line_witness :
  format_data sample_clock
    (<["close" := PyNone]> {["price" := PyStr "150.25"]}) "AAPL" None
  = Ok (current_text "AAPL" PyNone "+0.00" "+0.00%" up_glyph
          (PyStr "N/A") (PyStr "N/A") (PyStr "N/A") (PyStr "N/A") (PyStr "N/A")
          sample_clock)
  ∧ Text.contains
      (current_text "AAPL" PyNone "+0.00" "+0.00%" up_glyph
         (PyStr "N/A") (PyStr "N/A") (PyStr "N/A") (PyStr "N/A") (PyStr "N/A")
         sample_clock)
      ("Current Price: $" +:+ "None" +:+ nl +:+ "Change: ").
Proof.
  assert (H : format_data sample_clock
                (<["close" := PyNone]> {["price" := PyStr "150.25"]}) "AAPL" None
              = Ok (current_text "AAPL" PyNone "+0.00" "+0.00%" up_glyph
                      (PyStr "N/A") (PyStr "N/A") (PyStr "N/A") (PyStr "N/A")
                      (PyStr "N/A") sample_clock))
    by (vm_compute; reflexivity).
  split; [exact H|].
  exact (format_data_price_line sample_clock _ "AAPL" _ H).
Defined.

Lemma fetch_historical_provider_calls_witness :
  ascii_text "2024-01-15" = true
  ∧ provider_calls
      (fst (_fetch_historical_stock_price upper_ascii "aapl" "2024-01-15"
              (world_failing connection_error)))
    = [EodCall "AAPL" "2024-01-15"].
Proof.
  split; [reflexivity|].
  apply (fetch_historical_provider_calls upper_ascii "aapl" "2024-01-15"
           (world_failing connection_error)).
  reflexivity.
Defined.

Lemma fetch_historical_prefix_decides_witness :
  ascii_text "2024-01-13" = true
  ∧ ∃ text,
      snd (_fetch_historical_stock_price upper_ascii "aapl" "2024-01-13"
             (world_failing connection_error)) = Ok text
      ∧ (Text.starts_with text "Warning: "
         ↔ ∃ date_obj, Datetime.strptime_Ymd "2024-01-13" = Some date_obj
                       ∧ (5 <= Datetime.weekday date_obj)%Z)
      ∧ (Text.starts_with text "Error: Invalid date format"
         ↔ Datetime.strptime_Ymd "2024-01-13" = None).
Proof.
  split; [reflexivity|].
  apply (fetch_historical_prefix_decides upper_ascii "aapl" "2024-01-13"
           (world_failing connection_error)).
  reflexivity.
Defined.
